(** * pyhdb.cursor: statement execution and paginated fetch

    A shallow embedding of [pyhdb/cursor.py]: the [PreparedStatement]
    row binder and the [Cursor] class (prepare, execute, executemany,
    fetchmany, fetchone, fetchall, close), followed by the properties of
    the specification that concern them.

    Python objects are records, attribute assignment is an explicit state
    update, and a method is a computation in a state-and-exception monad.
    The connection (transport and server) is not part of [cursor.py]: it is
    a parameter of the development, see [Environment]. *)

From Stdlib Require Import ZArith String Ascii List Bool Lia DecimalString.
From stdpp Require Import base option list strings gmap.

Import ListNotations.
Open Scope string_scope.
Open Scope list_scope.
Open Scope Z_scope.

(** ** Python values *)

(** The values an application hands over as parameters and the values of a
    decoded row.  [PyList] and [PyTuple] are the two types accepted by
    [isinstance(parameters, (list, tuple))]. *)
#[warnings="-register-all"]
Inductive pyval : Type :=
| PyNone
| PyBool (b : bool)
| PyInt (z : Z)
| PyStr (s : string)
| PyList (items : list pyval)
| PyTuple (items : list pyval).

(** [bool(v)]: the truth value used by [if not parameters]. *)
Definition truthy (v : pyval) : bool :=
  match v with
  | PyNone => false
  | PyBool b => b
  | PyInt z => negb (z =? 0)
  | PyStr s => negb (String.eqb s "")
  | PyList items | PyTuple items =>
      match items with [] => false | _ :: _ => true end
  end.

(** [isinstance(v, (list, tuple))], returning the items when it holds. *)
Definition as_list_or_tuple (v : pyval) : option (list pyval) :=
  match v with
  | PyList items | PyTuple items => Some items
  | _ => None
  end.

(** [type(v).__name__]. *)
Definition type_name (v : pyval) : string :=
  match v with
  | PyNone => "NoneType"
  | PyBool _ => "bool"
  | PyInt _ => "int"
  | PyStr _ => "str"
  | PyList _ => "list"
  | PyTuple _ => "tuple"
  end.

(** [str(type(v))] under Python 2, e.g. [<type 'int'>]. *)
Definition str_type (v : pyval) : string :=
  "<type '" +:+ type_name v +:+ "'>".

(** ["%d" % n] for a length. *)
Definition str_nat (n : nat) : string :=
  NilEmpty.string_of_uint (Nat.to_uint n).

(** A decoded row of a result set: a tuple with one value per column. *)
Definition Row : Type := list pyval.

(** ** Strings *)

(** The double-quote character. *)
Definition dquote : string := String (ascii_of_nat 34) EmptyString.

(** [needle in hay] for Python strings. *)
Fixpoint str_in (needle hay : string) : bool :=
  String.prefix needle hay
  || match hay with
     | EmptyString => false
     | String _ rest => str_in needle rest
     end.

(** ** Exceptions *)

(** The exception classes [cursor.py] raises, catches or lets through.
    The three DB-API classes come from [pyhdb.exceptions]; the others are
    Python built-ins. *)
Inductive exn : Type :=
| StopIteration
| AssertionError
| AttributeError
| IndexError
| KeyError
| ValueError
| TypeError (msg : string)
| InterfaceError (msg : string)
| DatabaseError (msg : string)
| ProgrammingError (msg : string).

(** [str(e)]: the message an exception carries.  The texts of the built-in
    exceptions that take no message here are not modelled; none of them
    contains the signature [executemany] looks for. *)
Definition str_exn (e : exn) : string :=
  match e with
  | TypeError msg | InterfaceError msg | DatabaseError msg
  | ProgrammingError msg => msg
  | _ => ""
  end.

(** ** A state and exception monad *)

(** What a call does: return a value, raise an exception, or (for the two
    [while] loops, which are given fuel) not finish within the fuel. *)
Inductive outcome (A : Type) : Type :=
| Return (a : A)
| Raise (e : exn)
| OutOfFuel.
Arguments Return {A} a.
Arguments Raise {A} e.
Arguments OutOfFuel {A}.

Definition M (St A : Type) : Type := St -> outcome A * St.

Definition ret {St A} (a : A) : M St A := fun s => (Return a, s).
Definition raise {St A} (e : exn) : M St A := fun s => (Raise e, s).
Definition out_of_fuel {St A} : M St A := fun s => (OutOfFuel, s).

Definition bind {St A B} (m : M St A) (k : A -> M St B) : M St B :=
  fun s =>
    match m s with
    | (Return a, s') => k a s'
    | (Raise e, s') => (Raise e, s')
    | (OutOfFuel, s') => (OutOfFuel, s')
    end.

Definition get {St} : M St St := fun s => (Return s, s).
Definition gets {St A} (f : St -> A) : M St A := fun s => (Return (f s), s).
Definition modify {St} (f : St -> St) : M St unit := fun s => (Return tt, f s).

(** [try: m  except ...: handler]: the handler sees every exception and
    re-raises the ones its [except] clause does not name. *)
Definition try_except {St A} (m : M St A) (handler : exn -> M St A) : M St A :=
  fun s =>
    match m s with
    | (Raise e, s') => handler e s'
    | r => r
    end.

(** Lift a pure result that may be an exception. *)
Definition lift {St A} (r : exn + A) : M St A :=
  match r with
  | inl e => raise e
  | inr a => ret a
  end.

Declare Scope monad_scope.
Delimit Scope monad_scope with monad.
Notation "x <- m ;; k" := (bind m (fun x => k))
  (at level 100, m at next level, right associativity) : monad_scope.
Notation "m ;; k" := (bind m (fun _ => k))
  (at level 100, right associativity) : monad_scope.
Open Scope monad_scope.

(** [for x in xs: body(x)]. *)
Fixpoint for_each {St A} (xs : list A) (body : A -> M St unit) : M St unit :=
  match xs with
  | [] => ret tt
  | x :: rest => body x ;; for_each rest body
  end.

(** ** FORMAT_OPERATION_ERRORS *)

Definition FORMAT_OPERATION_ERRORS : list string :=
  [ "not enough arguments for format string";
    "not all arguments converted during string formatting" ].

(** The signature [executemany] looks for in a server error:
    [incorrect syntax near "%"]. *)
Definition PERCENT_SYNTAX_ERROR : string :=
  "incorrect syntax near " +:+ dquote +:+ "%" +:+ dquote.

(** ** PreparedStatement *)

(** One entry of [params_metadata]: the named tuple
    [ParameterMetadata(options, datatype, mode, id, length, fraction)]. *)
Record ParameterMetadata : Type := {
  pm_options : Z;
  pm_datatype : Z;
  pm_mode : Z;
  pm_id : nat;
  pm_length : Z;
  pm_fraction : Z
}.

(** [ParamTuple = namedtuple('Parameter', 'id type_code length value')]. *)
Record ParamTuple : Type := {
  pt_id : nat;
  pt_type_code : Z;
  pt_length : Z;
  pt_value : pyval
}.

(** One column record of a result-metadata part; [cursor.py] reads
    [column[0]], [column[1]], [column[2]], [column[3]] and [column[8]]. *)
Record Column : Type := {
  column_0 : Z;
  column_1 : Z;
  column_2 : Z;
  column_3 : Z;
  column_8 : string
}.

(** [_multi_row_parameters] is [None] until [prepare_parameters] stores an
    iterator; an iterator over a list is the list of items still to come.
    [_pushed_row_params] is a Python list used as a stack: [append] adds at
    the end and [pop] removes the last element. *)
Record PreparedStatement : Type := {
  statement_id : Z;
  _params_metadata : list ParameterMetadata;
  result_metadata_part : option (list Column);
  _pushed_row_params : list (list ParamTuple);
  _multi_row_parameters : option (list pyval);
  end_of_data : bool
}.

Definition set_pushed_row_params (v : list (list ParamTuple)) (self : PreparedStatement) :=
  {| statement_id := statement_id self;
     _params_metadata := _params_metadata self;
     result_metadata_part := result_metadata_part self;
     _pushed_row_params := v;
     _multi_row_parameters := _multi_row_parameters self;
     end_of_data := end_of_data self |}.

Definition set_multi_row_parameters (v : option (list pyval)) (self : PreparedStatement) :=
  {| statement_id := statement_id self;
     _params_metadata := _params_metadata self;
     result_metadata_part := result_metadata_part self;
     _pushed_row_params := _pushed_row_params self;
     _multi_row_parameters := v;
     end_of_data := end_of_data self |}.

Definition set_end_of_data (v : bool) (self : PreparedStatement) :=
  {| statement_id := statement_id self;
     _params_metadata := _params_metadata self;
     result_metadata_part := result_metadata_part self;
     _pushed_row_params := _pushed_row_params self;
     _multi_row_parameters := _multi_row_parameters self;
     end_of_data := v |}.

(** [PreparedStatement.__init__]. *)
Definition new_PreparedStatement (sid : Z) (params_metadata : list ParameterMetadata)
    (result_metadata : option (list Column)) : PreparedStatement :=
  {| statement_id := sid;
     _params_metadata := params_metadata;
     result_metadata_part := result_metadata;
     _pushed_row_params := [];
     _multi_row_parameters := None;
     end_of_data := false |}.

(** [list.pop()]: the last element and the list without it. *)
Fixpoint list_pop {A} (l : list A) : option (A * list A) :=
  match l with
  | [] => None
  | x :: rest =>
      match list_pop rest with
      | None => Some (x, [])
      | Some (y, rest') => Some (y, x :: rest')
      end
  end.

(** The two messages of [PreparedStatement.next]. *)
Definition msg_not_a_sequence (parameters : pyval) : string :=
  "Prepared statement parameters supplied as " +:+ str_type parameters
  +:+ ", shall be list or tuple.".

Definition msg_wrong_count (expected supplied : nat) : string :=
  "Prepared statement parameters expected " +:+ str_nat expected
  +:+ " supplied " +:+ str_nat supplied +:+ ".".

(** [[ParamTuple(p.id, p.datatype, p.length, parameters[p.id]) for p in metadata]]. *)
Fixpoint bind_row (metadata : list ParameterMetadata) (parameters : list pyval)
  : exn + list ParamTuple :=
  match metadata with
  | [] => inr []
  | p :: rest =>
      match nth_error parameters (pm_id p) with
      | None => inl IndexError
      | Some v =>
          match bind_row rest parameters with
          | inl e => inl e
          | inr tuples =>
              inr ({| pt_id := pm_id p; pt_type_code := pm_datatype p;
                      pt_length := pm_length p; pt_value := v |} :: tuples)
          end
      end
  end.

Module PreparedStatement.

(** [prepare_parameters(multi_row_parameters)]. *)
Definition prepare_parameters (multi_row_parameters : list pyval)
  : M PreparedStatement unit :=
  modify (set_end_of_data false) ;;
  modify (set_multi_row_parameters (Some multi_row_parameters)).

(** [__nonzero__]. *)
Definition nonzero : M PreparedStatement bool :=
  gets (fun self => negb (end_of_data self)).

(** [self._multi_row_parameters.next()]. *)
Definition iterator_next : M PreparedStatement pyval :=
  self <- get ;;
  match _multi_row_parameters self with
  | None => raise AttributeError
  | Some [] => raise StopIteration
  | Some (parameters :: rest) =>
      modify (set_multi_row_parameters (Some rest)) ;;
      ret parameters
  end.

(** [next()]. *)
Definition next : M PreparedStatement (list ParamTuple) :=
  self <- get ;;
  if end_of_data self then raise StopIteration
  else
    match list_pop (_pushed_row_params self) with
    | Some (row_params, rest) =>
        modify (set_pushed_row_params rest) ;;
        ret row_params
    | None =>
        parameters <-
          try_except iterator_next (fun e =>
            match e with
            | StopIteration =>
                modify (set_end_of_data true) ;; raise StopIteration
            | _ => raise e
            end) ;;
        match as_list_or_tuple parameters with
        | None => raise (ProgrammingError (msg_not_a_sequence parameters))
        | Some items =>
            if negb (length items =? length (_params_metadata self))%nat
            then raise (ProgrammingError
                          (msg_wrong_count (length (_params_metadata self))
                                           (length items)))
            else lift (bind_row (_params_metadata self) items)
        end
    end.

(** [push_back(row_params)]. *)
Definition push_back (row_params : list ParamTuple) : M PreparedStatement unit :=
  modify (fun self =>
    set_pushed_row_params (_pushed_row_params self ++ [row_params]) self).

End PreparedStatement.

(** ** Protocol messages *)

(** Modelled from the spec: [function_codes] ([pyhdb.protocol.constants] is
    not among the sources).  A response carries a function-code tag that
    classifies the outcome: select, data modification ([INSERT], [UPDATE],
    [DELETE]), schema definition, or any other code. *)
Inductive FunctionCode : Type :=
| SELECT
| INSERT
| UPDATE
| DELETE
| DDL
| OTHERCODE (code : Z).

(** [function_code in function_codes.DML]. *)
Definition in_DML (function_code : FunctionCode) : bool :=
  match function_code with
  | INSERT | UPDATE | DELETE => true
  | _ => false
  end.

(** A response part, one constructor per [part_kinds] tag that [cursor.py]
    tests, with the attributes it reads.  A result-set part carries its
    [attribute] bits and its rows; decoding [payload] with the column
    codecs ([_unpack_rows], [pyhdb.protocol.types]) is outside
    [cursor.py], so the part holds the [rows] decoded tuples. *)
Inductive Part : Type :=
| STATEMENTID (statement_id : Z)
| PARAMETERMETADATA (values : list ParameterMetadata)
| RESULTSETMETADATA (columns : list Column)
| RESULTSETID (value : Z)
| RESULTSET (attribute : Z) (rows : list Row)
| ROWSAFFECTED (values : list Z)
| STATEMENTCONTEXT
| TRANSACTIONFLAGS
| OTHERPART (kind : Z).

(** [response.segments[0]]. *)
Record Segment : Type := {
  function_code : FunctionCode;
  parts : list Part
}.

(** The four requests [cursor.py] builds, named by message type, with the
    content of their parts. *)
Inductive Request : Type :=
| PREPARE (statement : string)
| EXECUTE (statement_id : Z) (parameters : list (list ParamTuple))
| EXECUTEDIRECT (operation : string)
| FETCHNEXT (resultset_id : Z) (fetch_size : Z).

(** ** The environment of the cursor *)

(** What [cursor.py] imports and does not define.  [S] is the state of the
    server behind the connection.
    - [send]: the server's answer to a request, a segment or the exception
      [connection.send_request] raises, and the server's next state;
    - [escape_values]: [pyhdb.protocol.types.escape_values];
    - [str_mod]: Python's [operation % values];
    - [by_type_code]: membership in the codec registry;
    - [kind_number]: the [part_kinds] number of a part, used in messages;
    - [fits]: whether one more row fits the request being packed;
    - [isinstance_DatabaseError]: what [except DatabaseError] catches. *)
Record Environment (S : Type) : Type := {
  send : S -> Request -> (exn + Segment) * S;
  escape_values : pyval -> exn + pyval;
  str_mod : string -> pyval -> exn + string;
  by_type_code : Z -> bool;
  kind_number : Part -> Z;
  fits : list (list ParamTuple) -> list ParamTuple -> bool;
  isinstance_DatabaseError : exn -> bool
}.
Arguments send {S} _ _ _.
Arguments escape_values {S} _ _.
Arguments str_mod {S} _ _ _.
Arguments by_type_code {S} _ _.
Arguments kind_number {S} _ _.
Arguments fits {S} _ _ _.
Arguments isinstance_DatabaseError {S} _ _.

(** ["%d" % z] and ["%s" % z] for an integer. *)
Definition str_Z (z : Z) : string :=
  NilEmpty.string_of_int (Z.to_int z).

(** ** Cursor *)

(** One entry of [description]:
    [(column[8], column[1], None, column[3], column[2], None, column[0] & 0b10)]. *)
Record ColumnDescriptor : Type := {
  cd_name : string;
  cd_type_code : Z;
  cd_display_size : option Z;
  cd_internal_size : Z;
  cd_precision : Z;
  cd_scale : option Z;
  cd_null_ok : Z
}.

(** A cursor holds a reference to its connection, or [None] once closed. *)
Inductive ConnectionRef : Type := TheConnection.

(** The attributes of a cursor.  [_received_last_resultset_part] holds
    [False], [True] or [attribute & 1], that is 0 or 1; [_executed] is
    [None] or [True]; [_resultset_id] and [_column_types] do not exist
    before the first select. *)
Record Cursor : Type := {
  connection : option ConnectionRef;
  _buffer : list Row;
  _received_last_resultset_part : Z;
  _executed : bool;
  rowcount : Z;
  description : option (list ColumnDescriptor);
  rownumber : option Z;
  arraysize : Z;
  _prepared_statements : gmap Z PreparedStatement;
  _resultset_id : option Z;
  _column_types : option (list Z)
}.

(** [Cursor.__init__]. *)
Definition new_Cursor : Cursor :=
  {| connection := Some TheConnection;
     _buffer := [];
     _received_last_resultset_part := 0;
     _executed := false;
     rowcount := -1;
     description := None;
     rownumber := None;
     arraysize := 1;
     _prepared_statements := ∅;
     _resultset_id := None;
     _column_types := None |}.

Definition set_connection v (c : Cursor) : Cursor :=
  {| connection := v; _buffer := _buffer c;
     _received_last_resultset_part := _received_last_resultset_part c;
     _executed := _executed c; rowcount := rowcount c;
     description := description c; rownumber := rownumber c;
     arraysize := arraysize c; _prepared_statements := _prepared_statements c;
     _resultset_id := _resultset_id c; _column_types := _column_types c |}.

Definition set_buffer v (c : Cursor) : Cursor :=
  {| connection := connection c; _buffer := v;
     _received_last_resultset_part := _received_last_resultset_part c;
     _executed := _executed c; rowcount := rowcount c;
     description := description c; rownumber := rownumber c;
     arraysize := arraysize c; _prepared_statements := _prepared_statements c;
     _resultset_id := _resultset_id c; _column_types := _column_types c |}.

Definition set_received_last_resultset_part v (c : Cursor) : Cursor :=
  {| connection := connection c; _buffer := _buffer c;
     _received_last_resultset_part := v;
     _executed := _executed c; rowcount := rowcount c;
     description := description c; rownumber := rownumber c;
     arraysize := arraysize c; _prepared_statements := _prepared_statements c;
     _resultset_id := _resultset_id c; _column_types := _column_types c |}.

Definition set_executed v (c : Cursor) : Cursor :=
  {| connection := connection c; _buffer := _buffer c;
     _received_last_resultset_part := _received_last_resultset_part c;
     _executed := v; rowcount := rowcount c;
     description := description c; rownumber := rownumber c;
     arraysize := arraysize c; _prepared_statements := _prepared_statements c;
     _resultset_id := _resultset_id c; _column_types := _column_types c |}.

Definition set_rowcount v (c : Cursor) : Cursor :=
  {| connection := connection c; _buffer := _buffer c;
     _received_last_resultset_part := _received_last_resultset_part c;
     _executed := _executed c; rowcount := v;
     description := description c; rownumber := rownumber c;
     arraysize := arraysize c; _prepared_statements := _prepared_statements c;
     _resultset_id := _resultset_id c; _column_types := _column_types c |}.

Definition set_description v (c : Cursor) : Cursor :=
  {| connection := connection c; _buffer := _buffer c;
     _received_last_resultset_part := _received_last_resultset_part c;
     _executed := _executed c; rowcount := rowcount c;
     description := v; rownumber := rownumber c;
     arraysize := arraysize c; _prepared_statements := _prepared_statements c;
     _resultset_id := _resultset_id c; _column_types := _column_types c |}.

Definition set_arraysize v (c : Cursor) : Cursor :=
  {| connection := connection c; _buffer := _buffer c;
     _received_last_resultset_part := _received_last_resultset_part c;
     _executed := _executed c; rowcount := rowcount c;
     description := description c; rownumber := rownumber c;
     arraysize := v; _prepared_statements := _prepared_statements c;
     _resultset_id := _resultset_id c; _column_types := _column_types c |}.

Definition set_prepared_statements v (c : Cursor) : Cursor :=
  {| connection := connection c; _buffer := _buffer c;
     _received_last_resultset_part := _received_last_resultset_part c;
     _executed := _executed c; rowcount := rowcount c;
     description := description c; rownumber := rownumber c;
     arraysize := arraysize c; _prepared_statements := v;
     _resultset_id := _resultset_id c; _column_types := _column_types c |}.

Definition set_resultset_id v (c : Cursor) : Cursor :=
  {| connection := connection c; _buffer := _buffer c;
     _received_last_resultset_part := _received_last_resultset_part c;
     _executed := _executed c; rowcount := rowcount c;
     description := description c; rownumber := rownumber c;
     arraysize := arraysize c; _prepared_statements := _prepared_statements c;
     _resultset_id := v; _column_types := _column_types c |}.

Definition set_column_types v (c : Cursor) : Cursor :=
  {| connection := connection c; _buffer := _buffer c;
     _received_last_resultset_part := _received_last_resultset_part c;
     _executed := _executed c; rowcount := rowcount c;
     description := description c; rownumber := rownumber c;
     arraysize := arraysize c; _prepared_statements := _prepared_statements c;
     _resultset_id := _resultset_id c; _column_types := v |}.

(** The connection object, shared between the cursor and its owner:
    whether it is closed, the requests sent over it so far (oldest first),
    and the state of the server at its other end. *)
Record Connection (S : Type) : Type := {
  closed : bool;
  sent : list Request;
  server : S
}.
Arguments closed {S} _.
Arguments sent {S} _.
Arguments server {S} _.

(** The state a cursor method runs in: the cursor object [self] and the
    connection object its [connection] attribute refers to. *)
Record World (S : Type) : Type := {
  self : Cursor;
  conn : Connection S
}.
Arguments self {S} _.
Arguments conn {S} _.
Arguments Build_World {S} _ _.

Definition on_self {S} (f : Cursor -> Cursor) (w : World S) : World S :=
  {| self := f (self w); conn := conn w |}.

(** [while bool(self._buffer) and _missing > 0: _result.append(self._buffer.popleft()); _missing -= 1].
    Returns the buffer left, what is still missing and the result. *)
Fixpoint dequeue (buffer : list Row) (_missing : Z) (_result : list Row)
  : list Row * Z * list Row :=
  match buffer with
  | [] => (buffer, _missing, _result)
  | row :: rest =>
      if 0 <? _missing
      then dequeue rest (_missing - 1) (_result ++ [row])
      else (buffer, _missing, _result)
  end.

(** The truth value of [_received_last_resultset_part]. *)
Definition flag_set (flag : Z) : bool := negb (flag =? 0).

Section CursorMethods.

Context {S : Type} (env : Environment S).

(** *** format_operation *)

Definition format_operation (operation : string) (parameters : pyval)
  : exn + string :=
  match parameters with
  | PyNone => inr operation
  | _ =>
      match escape_values env parameters with
      | inl e => inl e
      | inr e_values =>
          match str_mod env operation e_values with
          | inl (TypeError msg) =>
              if existsb (String.eqb msg) FORMAT_OPERATION_ERRORS
              then inl (ProgrammingError msg)
              else inl (TypeError msg)
          | other => other
          end
      end
  end.

(** *** The transport *)

(** [self.connection.send_request(request)]: the request goes out over the
    connection and the server's answer comes back, as a segment or as the
    exception the connection raises for it. *)
Definition send_request (request : Request) : M (World S) Segment :=
  w <- get ;;
  match connection (self w) with
  | None => raise AttributeError
  | Some TheConnection =>
      let '(reply, server') := send env (server (conn w)) request in
      modify (fun w => {| self := self w;
                          conn := {| closed := closed (conn w);
                                     sent := sent (conn w) ++ [request];
                                     server := server' |} |}) ;;
      lift reply
  end.

(** Run a method of the prepared statement cached under [sid] on that
    object: what it does to the statement is seen by every holder of the
    reference, whether it returns or raises. *)
Definition on_statement {A} (sid : Z) (m : M PreparedStatement A)
  : M (World S) A :=
  fun w =>
    match _prepared_statements (self w) !! sid with
    | None => (Raise KeyError, w)
    | Some ps =>
        let '(r, ps') := m ps in
        (r, on_self (fun c =>
               set_prepared_statements (<[sid := ps']> (_prepared_statements c)) c) w)
    end.

(** Modelled from the spec: the [Parameters] request part
    ([pyhdb.protocol.parts] is not among the sources).  While a request is
    packed it pulls rows from the prepared statement with [next] until the
    statement signals the end of the sequence or a row does not fit; a row
    that does not fit is handed back with [push_back], so that the next
    pull returns it again.  An exception of [next] other than the end of
    the sequence leaves the packing.  Every pull takes a row from the
    lookahead stack or from the pending rows, so [fuel] larger than their
    number is never used up. *)
Fixpoint pack_parameters (fuel : nat) (packed : list (list ParamTuple))
  : M PreparedStatement (list (list ParamTuple)) :=
  match fuel with
  | O => out_of_fuel
  | Datatypes.S fuel' =>
      fun ps =>
        match PreparedStatement.next ps with
        | (Return row_params, ps') =>
            if fits env packed row_params
            then pack_parameters fuel' (packed ++ [row_params]) ps'
            else (PreparedStatement.push_back row_params ;; ret packed) ps'
        | (Raise StopIteration, ps') => (Return packed, ps')
        | (Raise e, ps') => (Raise e, ps')
        | (OutOfFuel, ps') => (OutOfFuel, ps')
        end
  end.

Definition pending_rows (ps : PreparedStatement) : nat :=
  length (_pushed_row_params ps)
  + match _multi_row_parameters ps with
    | None => 0
    | Some rows => length rows
    end.

(** Pack and send the [EXECUTE] request of a prepared statement:
    [StatementId(prepared_statement.statement_id)] and
    [Parameters(parameters)].  The request is packed before it is sent. *)
Definition send_execute (sid : Z) : M (World S) Segment :=
  ps_id <- on_statement sid (gets statement_id) ;;
  fuel <- on_statement sid (gets pending_rows) ;;
  rows <- on_statement sid (pack_parameters (2 + fuel) []) ;;
  send_request (EXECUTE ps_id rows).

(** *** Cursor *)

Definition _check_closed : M (World S) unit :=
  w <- get ;;
  match connection (self w) with
  | None => raise (ProgrammingError "Cursor closed")
  | Some TheConnection =>
      if closed (conn w) then raise (ProgrammingError "Cursor closed")
      else ret tt
  end.

Definition close : M (World S) unit :=
  modify (on_self (set_connection None)).

Definition get_prepared_statement (statement_id : Z) : M (World S) Z :=
  w <- get ;;
  match _prepared_statements (self w) !! statement_id with
  | None => raise KeyError
  | Some _ => ret statement_id
  end.

(** The [for part in response.segments[0].parts] loop of [prepare]. *)
Fixpoint scan_prepare_parts (parts : list Part)
    (acc : option Z * option (list ParameterMetadata) * option (list Column))
  : option Z * option (list ParameterMetadata) * option (list Column) :=
  match parts with
  | [] => acc
  | part :: rest =>
      let '(statement_id, params_metadata, result_metadata_part) := acc in
      scan_prepare_parts rest
        match part with
        | STATEMENTID sid => (Some sid, params_metadata, result_metadata_part)
        | PARAMETERMETADATA values => (statement_id, Some values, result_metadata_part)
        | RESULTSETMETADATA columns => (statement_id, params_metadata, Some columns)
        | _ => acc
        end
  end.

Definition prepare (statement : string) : M (World S) Z :=
  _check_closed ;;
  response <- send_request (PREPARE statement) ;;
  let '(statement_id, params_metadata, result_metadata_part) :=
    scan_prepare_parts (parts response) (None, None, None) in
  match statement_id with
  | None => raise AssertionError
  | Some statement_id =>
      match params_metadata with
      | None => raise AssertionError
      | Some params_metadata =>
          modify (on_self (fun c =>
            set_prepared_statements
              (<[statement_id :=
                   new_PreparedStatement statement_id params_metadata
                                         result_metadata_part]>
                 (_prepared_statements c)) c)) ;;
          ret statement_id
      end
  end.

(** [_handle_result_metadata]: the description and the column types, or
    the error for the first column whose type code has no codec. *)
Fixpoint _handle_result_metadata (columns : list Column)
  : exn + (list ColumnDescriptor * list Z) :=
  match columns with
  | [] => inr ([], [])
  | column :: rest =>
      if negb (by_type_code env (column_1 column))
      then inl (InterfaceError ("Unknown column data type: " +:+ str_Z (column_1 column)))
      else
        match _handle_result_metadata rest with
        | inl e => inl e
        | inr (description, column_types) =>
            inr ({| cd_name := column_8 column;
                    cd_type_code := column_1 column;
                    cd_display_size := None;
                    cd_internal_size := column_3 column;
                    cd_precision := column_2 column;
                    cd_scale := None;
                    cd_null_ok := Z.land (column_0 column) 2 |} :: description,
                 column_1 column :: column_types)
        end
  end.

(** The assignments a result-set part causes: a fresh buffer filled with
    the rows, the last-part flag and [_executed]. *)
Definition store_resultset (attribute : Z) (rows : list Row) : M (World S) unit :=
  modify (on_self (set_buffer [])) ;;
  modify (on_self (fun c => set_buffer (_buffer c ++ rows) c)) ;;
  modify (on_self (set_received_last_resultset_part (Z.land attribute 1))) ;;
  modify (on_self (set_executed true)).

Definition _handle_prepared_select (parts : list Part)
    (result_metadata : option (list Column)) : M (World S) unit :=
  modify (on_self (set_rowcount (-1))) ;;
  columns <- match result_metadata with
             | None => raise AttributeError
             | Some columns => ret columns
             end ;;
  meta <- lift (_handle_result_metadata columns) ;;
  modify (on_self (set_description (Some (fst meta)))) ;;
  modify (on_self (set_column_types (Some (snd meta)))) ;;
  for_each parts (fun part =>
    match part with
    | RESULTSETID value => modify (on_self (set_resultset_id (Some value)))
    | RESULTSET attribute rows => store_resultset attribute rows
    | STATEMENTCONTEXT => ret tt
    | _ => raise (InterfaceError
                    ("Prepared select statement response, unexpected part kind "
                     +:+ str_Z (kind_number env part) +:+ "."))
    end).

Definition _handle_prepared_insert (parts : list Part) : M (World S) unit :=
  for_each parts (fun part =>
    match part with
    | ROWSAFFECTED values =>
        match values with
        | [] => raise IndexError
        | v :: _ => modify (on_self (set_rowcount v))
        end
    | TRANSACTIONFLAGS => ret tt
    | STATEMENTCONTEXT => ret tt
    | _ => raise (InterfaceError
                    ("Prepared insert statement response, unexpected part kind "
                     +:+ str_Z (kind_number env part) +:+ "."))
    end) ;;
  modify (on_self (set_executed true)).

Definition _handle_select (parts : list Part) : M (World S) unit :=
  match parts with
  | [resultset_metadata; resultset_id; statement_context; result_set] =>
      modify (on_self (set_rowcount (-1))) ;;
      columns <- match resultset_metadata with
                 | RESULTSETMETADATA columns => ret columns
                 | _ => raise AttributeError
                 end ;;
      meta <- lift (_handle_result_metadata columns) ;;
      modify (on_self (set_description (Some (fst meta)))) ;;
      modify (on_self (set_column_types (Some (snd meta)))) ;;
      match resultset_id with
      | RESULTSETID value => modify (on_self (set_resultset_id (Some value)))
      | _ => raise AttributeError
      end ;;
      match result_set with
      | RESULTSET attribute rows => store_resultset attribute rows
      | _ => modify (on_self (set_buffer [])) ;; raise AttributeError
      end
  | _ => raise ValueError
  end.

Definition _handle_insert (parts : list Part) : M (World S) unit :=
  match parts with
  | [] => raise IndexError
  | ROWSAFFECTED values :: _ =>
      match values with
      | [] => raise IndexError
      | v :: _ =>
          modify (on_self (set_rowcount v)) ;;
          modify (on_self (set_description None))
      end
  | _ :: _ => raise AttributeError
  end.

(** The body of the [while parameters] loop of [execute_prepared]. *)
Definition execute_prepared_step (sid : Z) : M (World S) unit :=
  response <- send_execute sid ;;
  if match function_code response with SELECT => true | _ => false end then
    result_metadata <- on_statement sid (gets result_metadata_part) ;;
    _handle_prepared_select (parts response) result_metadata
  else if in_DML (function_code response) then
    _handle_prepared_insert (parts response)
  else if match function_code response with DDL => true | _ => false end then
    ret tt
  else raise (InterfaceError "Invalid or unsupported function code received").

Fixpoint execute_prepared_loop (fuel : nat) (sid : Z) : M (World S) unit :=
  more <- on_statement sid PreparedStatement.nonzero ;;
  if (more : bool) then
    match fuel with
    | O => out_of_fuel
    | Datatypes.S fuel' =>
        execute_prepared_step sid ;; execute_prepared_loop fuel' sid
    end
  else ret tt.

(** [execute_prepared(prepared_statement, multi_row_parameters)]; the
    statement is given by the key it is cached under. *)
Definition execute_prepared (fuel : nat) (prepared_statement : Z)
    (multi_row_parameters : list pyval) : M (World S) unit :=
  _check_closed ;;
  on_statement prepared_statement
    (PreparedStatement.prepare_parameters multi_row_parameters) ;;
  execute_prepared_loop fuel prepared_statement.

Definition _execute_direct (operation : string) : M (World S) unit :=
  response <- send_request (EXECUTEDIRECT operation) ;;
  if match function_code response with SELECT => true | _ => false end then
    _handle_select (parts response)
  else if in_DML (function_code response) then
    _handle_insert (parts response)
  else if match function_code response with DDL => true | _ => false end then
    ret tt
  else raise (InterfaceError "Invalid or unsupported function code received").

(** The [except DatabaseError, msg] block of [executemany]. *)
Definition executemany_fallback (statement : string) (parameters : list pyval)
    (msg : exn) : M (World S) unit :=
  if negb (str_in PERCENT_SYNTAX_ERROR (str_exn msg)) then raise msg
  else
    for_each parameters (fun row_params =>
      operation <- lift (format_operation statement row_params) ;;
      _execute_direct operation).

(** [executemany(statement, parameters)]: [try / except DatabaseError /
    else]; an exception of the [else] block is not handled here. *)
Definition executemany (fuel : nat) (statement : string)
    (parameters : list pyval) : M (World S) unit :=
  fun w =>
    match prepare statement w with
    | (Raise msg, w') =>
        if isinstance_DatabaseError env msg
        then executemany_fallback statement parameters msg w'
        else (Raise msg, w')
    | (Return statement_id, w') =>
        (prepared_statement <- get_prepared_statement statement_id ;;
         execute_prepared fuel prepared_statement parameters) w'
    | (OutOfFuel, w') => (OutOfFuel, w')
    end.

Definition execute (fuel : nat) (statement : string) (parameters : pyval)
  : M (World S) unit :=
  _check_closed ;;
  if negb (truthy parameters) then _execute_direct statement
  else executemany fuel statement [parameters].

Definition fetchmany (size : option Z) : M (World S) (list Row) :=
  _check_closed ;;
  w <- get ;;
  if negb (_executed (self w)) then raise (ProgrammingError "Require execute() first")
  else
    let size := match size with
                | None => arraysize (self w)
                | Some size => size
                end in
    let '(buffer, _missing, _result) := dequeue (_buffer (self w)) size [] in
    modify (on_self (set_buffer buffer)) ;;
    if (_missing =? 0) || flag_set (_received_last_resultset_part (self w))
    then ret _result
    else
      resultset_id <- match _resultset_id (self w) with
                      | None => raise AttributeError
                      | Some resultset_id => ret resultset_id
                      end ;;
      response <- send_request (FETCHNEXT resultset_id _missing) ;;
      match nth_error (parts response) 1 with
      | None => raise IndexError
      | Some (RESULTSET attribute rows) =>
          (if negb (Z.land attribute 1 =? 0)
           then modify (on_self (set_received_last_resultset_part 1))
           else ret tt) ;;
          ret (_result ++ rows)
      | Some _ => raise AttributeError
      end.

Definition fetchone : M (World S) (option Row) :=
  result <- fetchmany (Some 1) ;;
  match result with
  | row :: _ => ret (Some row)
  | [] => ret None
  end.

Fixpoint fetchall_loop (fuel : nat) (result : list Row) : M (World S) (list Row) :=
  w <- get ;;
  if match _buffer (self w) with [] => false | _ :: _ => true end
     || negb (flag_set (_received_last_resultset_part (self w)))
  then
    match fuel with
    | O => out_of_fuel
    | Datatypes.S fuel' =>
        more <- fetchmany None ;;
        fetchall_loop fuel' (result ++ more)
    end
  else ret result.

Definition fetchall (fuel : nat) : M (World S) (list Row) :=
  result <- fetchmany None ;;
  fetchall_loop fuel result.

End CursorMethods.


(** * Vocabulary of the properties *)

(** A cursor is closed when its connection reference is absent or its
    connection is closed, and open otherwise. *)
Definition cursor_closed {S} (w : World S) : Prop :=
  connection (self w) = None \/ closed (conn w) = true.

Definition cursor_open {S} (w : World S) : Prop :=
  connection (self w) = Some TheConnection /\ closed (conn w) = false.

(** The size a call [fetchmany(size)] works with. *)
Definition effective_size {S} (size : option Z) (w : World S) : Z :=
  match size with
  | None => arraysize (self w)
  | Some size => size
  end.

(** A server in state [s] honours the fetch size: the result-set part of
    its answer to a continuation request for a positive number of rows
    carries no more rows than asked. *)
Definition honours_fetch_size {S} (env : Environment S) (s : S) : Prop :=
  forall id m seg s' attribute rows,
    0 < m ->
    send env s (FETCHNEXT id m) = (inr seg, s') ->
    nth_error (parts seg) 1 = Some (RESULTSET attribute rows) ->
    Z.of_nat (length rows) <= m.

(** A server that holds a select result set: [pending s] are the rows not
    yet delivered in state [s].  A continuation request for a positive
    number of rows is answered with the next rows in order, at least one
    while rows are pending, and the final-chunk bit of the answer is set
    exactly when nothing is left. *)
Definition serves_resultset {S} (env : Environment S) (pending : S -> list Row)
  : Prop :=
  forall s id m, 0 < m ->
    exists seg s' attribute k,
      send env s (FETCHNEXT id m) = (inr seg, s')
      /\ nth_error (parts seg) 1 = Some (RESULTSET attribute (firstn k (pending s)))
      /\ pending s' = skipn k (pending s)
      /\ (flag_set (Z.land attribute 1) = true <-> pending s' = [])
      /\ (pending s <> [] -> (0 < k)%nat).

(** The rows of the active result set the application has not been given:
    the buffer, then what the server still holds. *)
Definition outstanding {S} (pending : S -> list Row) (w : World S) : list Row :=
  _buffer (self w) ++ pending (server (conn w)).

(** The state of a cursor between two fetches of a select result set. *)
Definition fetching {S} (pending : S -> list Row) (w : World S) : Prop :=
  cursor_open w
  /\ _executed (self w) = true
  /\ (exists id, _resultset_id (self w) = Some id)
  /\ (flag_set (_received_last_resultset_part (self w)) = true ->
      pending (server (conn w)) = []).

(** Repeated [fetchmany] calls, one per requested size; the chunks in the
    order they were returned. *)
Fixpoint fetchmany_each {S} (env : Environment S) (sizes : list Z)
  : M (World S) (list (list Row)) :=
  match sizes with
  | [] => ret []
  | size :: rest =>
      chunk <- fetchmany env (Some size) ;;
      chunks <- fetchmany_each env rest ;;
      ret (chunk :: chunks)
  end.

(** The statement cached under [sid], if any. *)
Definition cached {S} (w : World S) (sid : Z) : option PreparedStatement :=
  _prepared_statements (self w) !! sid.

(** A row that [next] accepts: a list or tuple with one value per
    parameter. *)
Definition well_formed_row (metadata : list ParameterMetadata) (row : pyval) : bool :=
  match as_list_or_tuple row with
  | None => false
  | Some items => (length items =? length metadata)%nat
  end.

(** The rows fit one request, in this order, after [packed]. *)
Fixpoint fit_together {S} (env : Environment S)
    (packed rows : list (list ParamTuple)) : bool :=
  match rows with
  | [] => true
  | row :: rest => fits env packed row && fit_together env (packed ++ [row]) rest
  end.

(** Binding every row of a list of application rows. *)
Fixpoint bind_rows (metadata : list ParameterMetadata) (rows : list pyval)
  : option (list (list ParamTuple)) :=
  match rows with
  | [] => Some []
  | row :: rest =>
      match as_list_or_tuple row with
      | None => None
      | Some items =>
          if (length items =? length metadata)%nat then
            match bind_row metadata items, bind_rows metadata rest with
            | inr tuples, Some bound => Some (tuples :: bound)
            | _, _ => None
            end
          else None
      end
  end.

(** * Environments for the examples *)

(** A fragment of Python's [format % values]: the directives [%s] and
    [%%], and a tuple of strings or integers as values. *)
Definition str_value (v : pyval) : exn + string :=
  match v with
  | PyStr s => inr s
  | PyInt z => inr (str_Z z)
  | _ => inl ValueError
  end.

Fixpoint percent_format_items (format : string) (values : list pyval)
  : exn + string :=
  match format with
  | EmptyString =>
      match values with
      | [] => inr EmptyString
      | _ :: _ => inl (TypeError "not all arguments converted during string formatting")
      end
  | String c rest =>
      if Ascii.eqb c "%" then
        match rest with
        | String d rest' =>
            if Ascii.eqb d "s" then
              match values with
              | [] => inl (TypeError "not enough arguments for format string")
              | v :: values' =>
                  match str_value v, percent_format_items rest' values' with
                  | inl e, _ => inl e
                  | _, inl e => inl e
                  | inr s, inr out => inr (s +:+ out)
                  end
              end
            else if Ascii.eqb d "%" then
              match percent_format_items rest' values with
              | inl e => inl e
              | inr out => inr (String "%" out)
              end
            else inl ValueError
        | EmptyString => inl ValueError
        end
      else
        match percent_format_items rest values with
        | inl e => inl e
        | inr out => inr (String c out)
        end
  end.

Definition percent_format (format : string) (values : pyval) : exn + string :=
  match values with
  | PyTuple items => percent_format_items format items
  | v => percent_format_items format [v]
  end.

(** SQL literals for integers and [None]; other values are refused. *)
Definition escape (value : pyval) : exn + pyval :=
  match value with
  | PyInt z => inr (PyStr (str_Z z))
  | PyNone => inr (PyStr "NULL")
  | _ => inl (InterfaceError "Unsupported python input")
  end.

Fixpoint escape_all (values : list pyval) : exn + list pyval :=
  match values with
  | [] => inr []
  | v :: rest =>
      match escape v, escape_all rest with
      | inl e, _ => inl e
      | _, inl e => inl e
      | inr s, inr out => inr (s :: out)
      end
  end.

Definition escape_sequence (values : pyval) : exn + pyval :=
  match as_list_or_tuple values with
  | Some items =>
      match escape_all items with
      | inl e => inl e
      | inr out => inr (PyTuple out)
      end
  | None => inl (InterfaceError "escape_values expects list, tuple or dict")
  end.

(** The class hierarchy of the DB-API: [ProgrammingError] derives from
    [DatabaseError]. *)
Definition dbapi_DatabaseError (e : exn) : bool :=
  match e with
  | DatabaseError _ | ProgrammingError _ => true
  | _ => false
  end.

(** Part-kind numbers of the protocol, for the messages only. *)
Definition protocol_kind_number (part : Part) : Z :=
  match part with
  | RESULTSET _ _ => 5
  | STATEMENTID _ => 10
  | ROWSAFFECTED _ => 12
  | RESULTSETID _ => 13
  | STATEMENTCONTEXT => 39
  | PARAMETERMETADATA _ => 47
  | RESULTSETMETADATA _ => 48
  | TRANSACTIONFLAGS => 64
  | OTHERPART kind => kind
  end.

(** An environment around a given server: every type code has a codec and a
    request takes at most two rows. *)
Definition environment_of {S} (send : S -> Request -> (exn + Segment) * S)
  : Environment S :=
  {| send := send;
     escape_values := escape_sequence;
     str_mod := percent_format;
     by_type_code := fun _ => true;
     kind_number := protocol_kind_number;
     fits := fun packed _ => (length packed <? 2)%nat;
     isinstance_DatabaseError := dbapi_DatabaseError |}.

(** A scripted server: it answers the requests with the replies of its
    script, in order, whatever the requests are. *)
Definition scripted (script : list (exn + Segment)) (request : Request)
  : (exn + Segment) * list (exn + Segment) :=
  match script with
  | [] => (inl (DatabaseError "connection lost"), [])
  | reply :: rest => (reply, rest)
  end.

(** A server holding the rows of one select result set and delivering them
    in chunks of at most [chunk] rows: the first chunk with the answer to
    the statement, the following ones on continuation requests. *)
Definition last_chunk_bit (remaining : list Row) : Z :=
  match remaining with [] => 1 | _ :: _ => 0 end.

Definition resultset_server (chunk : nat) (columns : list Column)
    (remaining : list Row) (request : Request) : (exn + Segment) * list Row :=
  match request with
  | EXECUTEDIRECT _ =>
      (inr {| function_code := SELECT;
              parts := [RESULTSETMETADATA columns; RESULTSETID 1; STATEMENTCONTEXT;
                        RESULTSET (last_chunk_bit (skipn chunk remaining))
                                  (firstn chunk remaining)] |},
       skipn chunk remaining)
  | FETCHNEXT _ m =>
      let k := Nat.min chunk (Z.to_nat m) in
      (inr {| function_code := OTHERCODE 10;
              parts := [RESULTSETID 1;
                        RESULTSET (last_chunk_bit (skipn k remaining))
                                  (firstn k remaining)] |},
       skipn k remaining)
  | _ => (inl (DatabaseError "feature not supported"), remaining)
  end.

(** A server that ignores the fetch size and sends three rows. *)
Definition eager_server (_ : unit) (request : Request) : (exn + Segment) * unit :=
  (inr {| function_code := OTHERCODE 10;
          parts := [RESULTSETID 1;
                    RESULTSET 1 [[PyInt 1]; [PyInt 2]; [PyInt 3]]] |}, tt).

(** A fresh cursor on an open connection to a server in state [s]. *)
Definition new_World {S} (s : S) : World S :=
  {| self := new_Cursor;
     conn := {| closed := false; sent := []; server := s |} |}.

(** A cursor in the middle of a select: executed, with the given buffer and
    last-part flag. *)
Definition fetching_World {S} (s : S) (buffer : list Row) (flag : Z) (size : Z)
  : World S :=
  on_self (fun c => set_arraysize size
                      (set_resultset_id (Some 1)
                         (set_executed true
                            (set_received_last_resultset_part flag
                               (set_buffer buffer c)))))
          (new_World s).

(** A statement with one integer parameter, and the row binding [1] to it. *)
Definition one_parameter : ParameterMetadata :=
  {| pm_options := 2; pm_datatype := 3; pm_mode := 1; pm_id := 0;
     pm_length := 10; pm_fraction := 0 |}.

Definition bound_one : list ParamTuple :=
  [ {| pt_id := 0; pt_type_code := 3; pt_length := 10; pt_value := PyInt 1 |} ].


(** The message [next] raises for a row it refuses. *)
Definition refusal (metadata : list ParameterMetadata) (row : pyval) : string :=
  match as_list_or_tuple row with
  | None => msg_not_a_sequence row
  | Some items => msg_wrong_count (length metadata) (length items)
  end.


(** A fresh cursor on a scripted server with the one-parameter statement
    cached under the identifier 7 and bound to [rows]. *)
Definition binding_World (script : list (exn + Segment)) (rows : list pyval)
  : World (list (exn + Segment)) :=
  on_self
    (set_prepared_statements
       {[ 7 := snd (PreparedStatement.prepare_parameters rows
                      (new_PreparedStatement 7 [one_parameter] None)) ]})
    (new_World script).

(** The world after a request has gone out and the server has moved on. *)
Definition after_request {S} (request : Request) (s' : S) (w : World S) : World S :=
  {| self := self w;
     conn := {| closed := closed (conn w);
                sent := sent (conn w) ++ [request];
                server := s' |} |}.

(** The cursor caches a new prepared statement. *)
Definition cache_statement {S} (sid : Z) (ps : PreparedStatement) (w : World S)
  : World S :=
  on_self (fun c => set_prepared_statements
                      (<[sid := ps]> (_prepared_statements c)) c) w.

(** Replies of a server to a select over one integer column, to a prepare
    request for a statement with one parameter, and to an insert. *)
Definition integer_column : Column :=
  {| column_0 := 2; column_1 := 3; column_2 := 0; column_3 := 10; column_8 := "A" |}.

Definition select_reply : Segment :=
  {| function_code := SELECT;
     parts := [RESULTSETMETADATA [integer_column]; RESULTSETID 1; STATEMENTCONTEXT;
               RESULTSET 1 [[PyInt 1]]] |}.

Definition prepare_reply : Segment :=
  {| function_code := INSERT;
     parts := [STATEMENTID 7; PARAMETERMETADATA [one_parameter]] |}.

Definition insert_reply : Segment :=
  {| function_code := INSERT; parts := [ROWSAFFECTED [1]] |}.

(** The description of the select over [integer_column]. *)
Definition integer_description : list ColumnDescriptor :=
  [ {| cd_name := "A"; cd_type_code := 3; cd_display_size := None;
       cd_internal_size := 10; cd_precision := 0; cd_scale := None;
       cd_null_ok := 2 |} ].

(** The error of a server that takes the percent sign of a printf-style
    placeholder for a syntax error. *)
Definition percent_conflict : exn :=
  DatabaseError ("sql syntax error: " +:+ PERCENT_SYNTAX_ERROR +:+ ": line 1 col 23").

(** The bound on the calls of [fetchmany] that [fetchall] still makes:
    the rows that are outstanding, and one call to learn that the last part
    has been received. *)
Definition fetches_left {S} (pending : S -> list Row) (w : World S) : nat :=
  length (outstanding pending w)
  + (if flag_set (_received_last_resultset_part (self w)) then 0 else 1).

(** The condition of the [while] loop of [fetchall]. *)
Definition more_to_fetch {S} (w : World S) : bool :=
  match _buffer (self w) with [] => false | _ :: _ => true end
  || negb (flag_set (_received_last_resultset_part (self w))).

(** What a call of [fetchmany] takes from the buffer. *)
Definition taken {S} (size : option Z) (w : World S) : nat :=
  Nat.min (length (_buffer (self w))) (Z.to_nat (effective_size size w)).

(** The cursor after a continuation response has been handled. *)
Definition note_last_part {S} (attribute : Z) (w : World S) : World S :=
  if negb (Z.land attribute 1 =? 0)
  then on_self (set_received_last_resultset_part 1) w
  else w.

(** A result set of seven rows over one integer column. *)
Definition seven_rows : list Row :=
  [[PyInt 1]; [PyInt 2]; [PyInt 3]; [PyInt 4]; [PyInt 5]; [PyInt 6]; [PyInt 7]].

(** * Frames *)

(** [preserves f m]: whatever [m] does, the observation [f] of the state is
    the same afterwards. *)
Definition preserves {St A X} (f : St -> X) (m : M St A) : Prop :=
  forall s r s', m s = (r, s') -> f s' = f s.


(** * Vocabulary of the further properties *)

(** The entry of [description] that [_handle_result_metadata] builds for a
    column. *)
Definition describe (column : Column) : ColumnDescriptor :=
  {| cd_name := column_8 column;
     cd_type_code := column_1 column;
     cd_display_size := None;
     cd_internal_size := column_3 column;
     cd_precision := column_2 column;
     cd_scale := None;
     cd_null_ok := Z.land (column_0 column) 2 |}.




(** A prepared-execute request for the statement [sid]. *)
Definition is_EXECUTE_of (sid : Z) (request : Request) : Prop :=
  exists rows, request = EXECUTE sid rows.

(** A reply to a schema-definition statement, and one with a function code
    the cursor does not know. *)
Definition ddl_reply : Segment := {| function_code := DDL; parts := [] |}.

Definition commit_reply : Segment := {| function_code := OTHERCODE 11; parts := [] |}.


(** A column whose type code has no codec in [picky_environment], which
    knows the integer type only. *)
Definition blob_column : Column :=
  {| column_0 := 0; column_1 := 99; column_2 := 0; column_3 := 0; column_8 := "B" |}.

Definition picky_environment : Environment (list (exn + Segment)) :=
  {| send := scripted;
     escape_values := escape_sequence;
     str_mod := percent_format;
     by_type_code := fun code => code =? 3;
     kind_number := protocol_kind_number;
     fits := fun packed _ => (length packed <? 2)%nat;
     isinstance_DatabaseError := dbapi_DatabaseError |}.

(** The cursor caches under [sid] a statement that carries this
    identifier, as every statement cached by [prepare] does. *)
Definition holds_statement {S} (sid : Z) (w : World S) : Prop :=
  exists ps, cached w sid = Some ps /\ statement_id ps = sid.

(** A statement with one integer parameter in the middle of a batch: the
    row [(1,)] has been pushed back and the row [(1, 2)] is pending. *)
Definition midway_statement : PreparedStatement :=
  {| statement_id := 7;
     _params_metadata := [one_parameter];
     result_metadata_part := None;
     _pushed_row_params := [bound_one];
     _multi_row_parameters := Some [PyTuple [PyInt 1; PyInt 2]];
     end_of_data := false |}.

(** The malformed [row] is still ahead of the statement: the rows not yet
    pulled from the source are an end piece of [before], then [row], then
    [rest]. *)
Definition row_ahead (metadata : list ParameterMetadata) (before : list pyval)
    (row : pyval) (rest : list pyval) (ps : PreparedStatement) : Prop :=
  end_of_data ps = false
  /\ _params_metadata ps = metadata
  /\ exists pulled ahead,
       before = pulled ++ ahead
       /\ _multi_row_parameters ps = Some (ahead ++ row :: rest).

(** The malformed row has just been pulled and refused: the lookahead
    stack is empty and the source is left with the rows after it. *)
Definition row_refused (metadata : list ParameterMetadata) (rest : list pyval)
    (ps : PreparedStatement) : Prop :=
  end_of_data ps = false
  /\ _params_metadata ps = metadata
  /\ _pushed_row_params ps = []
  /\ _multi_row_parameters ps = Some rest.
(** * Properties *)

(** ** Frame lemmas: what a computation leaves alone *)

Lemma preserves_ret {St A X} (f : St -> X) (a : A) : preserves f (ret a).
Proof. intros s r s' H. inversion H. reflexivity. Qed.

Lemma preserves_raise {St A X} (f : St -> X) e : preserves f (@raise St A e).
Proof. intros s r s' H. inversion H. reflexivity. Qed.

Lemma preserves_out_of_fuel {St A X} (f : St -> X) : preserves f (@out_of_fuel St A).
Proof. intros s r s' H. inversion H. reflexivity. Qed.

Lemma preserves_get {St X} (f : St -> X) : preserves f get.
Proof. intros s r s' H. inversion H. reflexivity. Qed.

Lemma preserves_lift {St A X} (f : St -> X) (r : exn + A) : preserves f (@lift St A r).
Proof. destruct r; [apply preserves_raise | apply preserves_ret]. Qed.

Lemma preserves_modify {St X} (f : St -> X) (g : St -> St) :
  (forall s, f (g s) = f s) -> preserves f (modify g).
Proof. intros Hg s r s' H. inversion H. apply Hg. Qed.

Lemma preserves_bind {St A B X} (f : St -> X) (m : M St A) (k : A -> M St B) :
  preserves f m -> (forall a, preserves f (k a)) -> preserves f (bind m k).
Proof.
  intros Hm Hk s r s' H. unfold bind in H.
  destruct (m s) as [[a | e |] s1] eqn:E.
  - rewrite (Hk a _ _ _ H). eapply Hm; eassumption.
  - inversion H; subst. eapply Hm; eassumption.
  - inversion H; subst. eapply Hm; eassumption.
Qed.

Lemma preserves_for_each {St A X} (f : St -> X) (xs : list A) (body : A -> M St unit) :
  (forall x, preserves f (body x)) -> preserves f (for_each xs body).
Proof.
  intros Hb. induction xs as [| x xs IH]; simpl.
  - apply preserves_ret.
  - apply preserves_bind; [apply Hb | intros _; apply IH].
Qed.

Create HintDb frame.
#[local] Hint Resolve preserves_ret preserves_raise preserves_out_of_fuel
  preserves_get preserves_lift preserves_for_each : frame.

(** Solve [preserves f m] for a computation built from the monad's
    operations, case distinctions and updates of the cursor. *)
Ltac frame :=
  repeat
    (intros;
     match goal with
     | |- preserves _ (bind _ _) => apply preserves_bind
     | |- preserves _ (for_each _ _) => apply preserves_for_each
     | |- preserves _ (modify _) => apply preserves_modify; intros; reflexivity
     | |- preserves _ (match ?x with _ => _ end) => destruct x
     | |- preserves _ (if ?b then _ else _) => destruct b
     | |- preserves _ _ => solve [auto with frame]
     end).

Section Frames.

Context {S : Type} (env : Environment S).

(** The handlers of a response assign attributes of the cursor; they
    neither use the connection nor touch the cached statements. *)
Lemma _handle_select_conn parts :
  preserves (@conn S) (_handle_select env parts).
Proof. unfold _handle_select, store_resultset. frame. Qed.

Lemma _handle_insert_conn parts :
  preserves (@conn S) (_handle_insert parts).
Proof. unfold _handle_insert. frame. Qed.

Lemma _handle_prepared_insert_description parts :
  preserves (fun w : World S => description (self w))
            (_handle_prepared_insert env parts).
Proof. unfold _handle_prepared_insert. frame. Qed.

Lemma _check_closed_state (w : World S) r w' :
  _check_closed w = (r, w') -> w' = w.
Proof.
  unfold _check_closed, bind, get. destruct (connection (self w)) as [[] |];
    [destruct (closed (conn w)) |]; intros H; inversion H; reflexivity.
Qed.

End Frames.

(** ** Closing a cursor *)

Section Close.

Context {S : Type} (env : Environment S).

(** C10. [close] succeeds on every cursor and changes nothing but the
    connection reference, which it clears: the buffer, the row count, the
    description, the array size, the cached statements and every other
    attribute are as before, nothing is sent and the connection object is
    untouched; closing a closed cursor succeeds again and changes
    nothing. *)
Theorem close_clears_only_the_connection (w : World S) :
  exists w',
    close w = (Return tt, w')
    /\ connection (self w') = None
    /\ _buffer (self w') = _buffer (self w)
    /\ rowcount (self w') = rowcount (self w)
    /\ description (self w') = description (self w)
    /\ arraysize (self w') = arraysize (self w)
    /\ _prepared_statements (self w') = _prepared_statements (self w)
    /\ _received_last_resultset_part (self w') = _received_last_resultset_part (self w)
    /\ _executed (self w') = _executed (self w)
    /\ rownumber (self w') = rownumber (self w)
    /\ _resultset_id (self w') = _resultset_id (self w)
    /\ _column_types (self w') = _column_types (self w)
    /\ conn w' = conn w
    /\ close w' = (Return tt, w').
Proof.
  exists (on_self (set_connection None) w).
  repeat split; reflexivity.
Qed.

Lemma closed_check (w : World S) :
  cursor_closed w ->
  _check_closed w = (Raise (ProgrammingError "Cursor closed"), w).
Proof.
  intros [H | H]; unfold _check_closed, bind, get.
  - rewrite H. reflexivity.
  - destruct (connection (self w)) as [[] |]; [rewrite H |]; reflexivity.
Qed.

Lemma open_check (w : World S) :
  cursor_open w -> _check_closed w = (Return tt, w).
Proof.
  intros [Hc Ho]. unfold _check_closed, bind, get. rewrite Hc, Ho. reflexivity.
Qed.

Lemma closed_prepare (w : World S) statement :
  cursor_closed w ->
  prepare env statement w = (Raise (ProgrammingError "Cursor closed"), w).
Proof.
  intros H. unfold prepare, bind. rewrite (closed_check w H). reflexivity.
Qed.

Lemma closed_fetchmany (w : World S) size :
  cursor_closed w ->
  fetchmany env size w = (Raise (ProgrammingError "Cursor closed"), w).
Proof.
  intros H. unfold fetchmany, bind. rewrite (closed_check w H). reflexivity.
Qed.

(** C8. On a cursor whose connection reference is absent or whose
    connection is closed, [execute], [executemany], [prepare],
    [fetchone], [fetchmany] and [fetchall] raise
    [ProgrammingError("Cursor closed")] and leave cursor and connection as
    they were, whatever their arguments; [close] succeeds. *)
Theorem closed_cursor_refuses_all_but_close
    (w : World S) (fuel : nat) (statement : string) (parameters : pyval)
    (rows : list pyval) (size : option Z) :
  cursor_closed w ->
  execute env fuel statement parameters w
    = (Raise (ProgrammingError "Cursor closed"), w)
  /\ executemany env fuel statement rows w
    = (Raise (ProgrammingError "Cursor closed"), w)
  /\ prepare env statement w = (Raise (ProgrammingError "Cursor closed"), w)
  /\ fetchone env w = (Raise (ProgrammingError "Cursor closed"), w)
  /\ fetchmany env size w = (Raise (ProgrammingError "Cursor closed"), w)
  /\ fetchall env fuel w = (Raise (ProgrammingError "Cursor closed"), w)
  /\ exists w', close w = (Return tt, w').
Proof.
  intros H. repeat split.
  - unfold execute, bind. rewrite (closed_check w H). reflexivity.
  - unfold executemany. rewrite (closed_prepare w statement H).
    destruct (isinstance_DatabaseError env _); reflexivity.
  - apply closed_prepare, H.
  - unfold fetchone, bind. rewrite (closed_fetchmany w _ H). reflexivity.
  - apply closed_fetchmany, H.
  - unfold fetchall, bind. rewrite (closed_fetchmany w _ H). reflexivity.
  - eexists. reflexivity.
Qed.

(** ** Fetching *)

Lemma set_buffer_same (c : Cursor) : set_buffer (_buffer c) c = c.
Proof. destruct c; reflexivity. Qed.

Lemma on_self_same (w : World S) : on_self (set_buffer (_buffer (self w))) w = w.
Proof. unfold on_self. rewrite set_buffer_same. destruct w; reflexivity. Qed.

Lemma dequeue_nothing buffer : dequeue buffer 0 [] = (buffer, 0, []).
Proof. destruct buffer; reflexivity. Qed.

(** C9. On an open, executed cursor, [fetchmany(0)] returns the empty list
    and leaves everything as it was: no request is sent and the buffer and
    the last-part flag, whatever they hold, are unchanged. *)
Theorem fetchmany_zero_is_empty (w : World S) :
  cursor_open w ->
  _executed (self w) = true ->
  fetchmany env (Some 0) w = (Return [], w).
Proof.
  intros Ho He. unfold fetchmany, bind. rewrite (open_check w Ho).
  unfold get. simpl. rewrite He. simpl. rewrite dequeue_nothing.
  unfold modify. simpl. rewrite on_self_same. reflexivity.
Qed.

End Close.

(** C8 on a fresh cursor that has been closed. *)
Lemma closed_cursor_refuses_all_but_close_witness :
  let w := on_self (set_connection None) (new_World [] : World (list (exn + Segment))) in
  let env := environment_of scripted in
  cursor_closed w
  /\ execute env 1 "SELECT 1 FROM DUMMY" PyNone w
     = (Raise (ProgrammingError "Cursor closed"), w)
  /\ fetchall env 1 w = (Raise (ProgrammingError "Cursor closed"), w).
Proof.
  intros w env.
  assert (H : cursor_closed w) by (left; reflexivity).
  split; [exact H |].
  pose proof (closed_cursor_refuses_all_but_close env w 1 "SELECT 1 FROM DUMMY"
                PyNone [] None H) as (He & _ & _ & _ & _ & Ha & _).
  split; [exact He | exact Ha].
Defined.

(** C9 on a cursor with two buffered rows and more to come. *)
Lemma fetchmany_zero_is_empty_witness :
  let w := fetching_World ([] : list (exn + Segment)) [[PyInt 1]; [PyInt 2]] 0 1 in
  fetchmany (environment_of scripted) (Some 0) w = (Return [], w).
Proof.
  intros w. apply fetchmany_zero_is_empty.
  - split; reflexivity.
  - reflexivity.
Defined.

(** ** The row binder *)

Section Binder.

Import PreparedStatement.

Lemma list_pop_app {A} (l : list A) (x : A) : list_pop (l ++ [x]) = Some (x, l).
Proof.
  induction l as [| y l IH]; simpl.
  - reflexivity.
  - rewrite IH. reflexivity.
Qed.

Lemma next_at_end (ps : PreparedStatement) :
  end_of_data ps = true -> next ps = (Raise StopIteration, ps).
Proof. intros H. unfold next, bind, get. rewrite H. reflexivity. Qed.

Lemma next_pushed (ps : PreparedStatement) stack row :
  end_of_data ps = false ->
  _pushed_row_params ps = stack ++ [row] ->
  next ps = (Return row, set_pushed_row_params stack ps).
Proof.
  intros He Hs. unfold next, bind, get. rewrite He, Hs, list_pop_app.
  reflexivity.
Qed.

Lemma next_exhausted (ps : PreparedStatement) :
  end_of_data ps = false ->
  _pushed_row_params ps = [] ->
  _multi_row_parameters ps = Some [] ->
  next ps = (Raise StopIteration, set_end_of_data true ps).
Proof.
  intros He Hs Hm. unfold next, bind, get. rewrite He, Hs. simpl.
  unfold try_except, iterator_next, bind, get. rewrite Hm. reflexivity.
Qed.

(** What [next] does with the next row of the source. *)
Lemma next_from_source (ps : PreparedStatement) row rest :
  end_of_data ps = false ->
  _pushed_row_params ps = [] ->
  _multi_row_parameters ps = Some (row :: rest) ->
  next ps
  = (match as_list_or_tuple row with
     | None => Raise (ProgrammingError (msg_not_a_sequence row))
     | Some items =>
         if negb (length items =? length (_params_metadata ps))%nat
         then Raise (ProgrammingError
                       (msg_wrong_count (length (_params_metadata ps)) (length items)))
         else match bind_row (_params_metadata ps) items with
              | inl e => Raise e
              | inr tuples => Return tuples
              end
     end,
     set_multi_row_parameters (Some rest) ps).
Proof.
  intros He Hs Hm. unfold next, bind, get. rewrite He, Hs. simpl.
  unfold try_except, iterator_next, bind, get. rewrite Hm. simpl.
  destruct (as_list_or_tuple row) as [items |]; [| reflexivity].
  destruct (negb _); [reflexivity |].
  destruct (bind_row _ items); reflexivity.
Qed.

(** C6, as the code has it.  While the end of the data has not been
    reached, [push_back(r)] followed by [next()] returns [r] and leaves the
    statement as it was before the push; once the end has been reached,
    [next()] signals the end of the sequence even after a [push_back], and
    the pushed row stays on the stack.  When the lookahead stack is empty
    and the row source is exhausted, [next()] records the end of the data
    and signals the end of the sequence, and so does every later call. *)
Theorem push_back_then_next (ps : PreparedStatement) (r : list ParamTuple) :
  (end_of_data ps = false ->
   next (snd (push_back r ps)) = (Return r, ps))
  /\ (end_of_data ps = true ->
      next (snd (push_back r ps)) = (Raise StopIteration, snd (push_back r ps)))
  /\ (end_of_data ps = false ->
      _pushed_row_params ps = [] ->
      _multi_row_parameters ps = Some [] ->
      exists ps',
        next ps = (Raise StopIteration, ps')
        /\ end_of_data ps' = true
        /\ next ps' = (Raise StopIteration, ps')).
Proof.
  split; [| split].
  - intros He.
    rewrite (next_pushed (snd (push_back r ps)) (_pushed_row_params ps) r);
      [| exact He | reflexivity].
    destruct ps; reflexivity.
  - intros He. apply next_at_end. exact He.
  - intros He Hs Hm. exists (set_end_of_data true ps).
    split; [apply next_exhausted; assumption |].
    split; [reflexivity | apply next_at_end; reflexivity].
Qed.

End Binder.

(** C6 on a statement bound to the single row [(1,)]: a pushed-back row is
    returned while the data has not ended, and the second pull after the
    last row ends the sequence for good. *)
Lemma push_back_then_next_witness :
  let ps := snd (PreparedStatement.prepare_parameters [PyTuple [PyInt 1]]
                   (new_PreparedStatement 7 [one_parameter] None)) in
  let ps1 := snd (PreparedStatement.next ps) in
  PreparedStatement.next (snd (PreparedStatement.push_back bound_one ps))
  = (Return bound_one, ps)
  /\ exists ps',
       PreparedStatement.next ps1 = (Raise StopIteration, ps')
       /\ end_of_data ps' = true
       /\ PreparedStatement.next ps' = (Raise StopIteration, ps').
Proof.
  intros ps ps1. split.
  - apply (push_back_then_next ps bound_one). reflexivity.
  - apply (push_back_then_next ps1 bound_one); reflexivity.
Defined.

(** C6 as stated fails once the end of the data has been reached: the row
    [(1,)] is pulled, the next pull ends the sequence, and the row pushed
    back after that is not returned by the following pull. *)
Lemma push_back_after_end_is_not_returned :
  let ps := snd (PreparedStatement.prepare_parameters [PyTuple [PyInt 1]]
                   (new_PreparedStatement 7 [one_parameter] None)) in
  let ps1 := snd (PreparedStatement.next ps) in
  let ps2 := snd (PreparedStatement.next ps1) in
  fst (PreparedStatement.next ps) = Return bound_one
  /\ fst (PreparedStatement.next ps1) = Raise StopIteration
  /\ fst (PreparedStatement.next (snd (PreparedStatement.push_back bound_one ps2)))
     <> Return bound_one.
Proof.
  intros ps ps1 ps2. split; [reflexivity |]. split; [reflexivity |].
  vm_compute. discriminate.
Qed.

(** ** Malformed rows *)

Section Malformed.

Context {S : Type} (env : Environment S).

Import PreparedStatement.

Lemma next_refuses (ps : PreparedStatement) row rest :
  end_of_data ps = false ->
  _pushed_row_params ps = [] ->
  _multi_row_parameters ps = Some (row :: rest) ->
  well_formed_row (_params_metadata ps) row = false ->
  next ps = (Raise (ProgrammingError (refusal (_params_metadata ps) row)),
             set_multi_row_parameters (Some rest) ps).
Proof.
  intros He Hs Hm Hw. rewrite (next_from_source ps row rest He Hs Hm).
  unfold well_formed_row, refusal in *.
  destruct (as_list_or_tuple row) as [items |]; [| reflexivity].
  rewrite Hw. reflexivity.
Qed.

(** Packing pulls the rows that fit and leaves with the exception of the
    first row that [next] refuses. *)
Lemma pack_parameters_refuses (good : list pyval) :
  forall (ps : PreparedStatement) packed bound row rest fuel,
    end_of_data ps = false ->
    _pushed_row_params ps = [] ->
    _multi_row_parameters ps = Some (good ++ row :: rest) ->
    bind_rows (_params_metadata ps) good = Some bound ->
    fit_together env packed bound = true ->
    well_formed_row (_params_metadata ps) row = false ->
    (length good < fuel)%nat ->
    pack_parameters env fuel packed ps
    = (Raise (ProgrammingError (refusal (_params_metadata ps) row)),
       set_multi_row_parameters (Some rest) ps).
Proof.
  induction good as [| g good IH]; intros ps packed bound row rest fuel
    He Hs Hm Hb Hf Hw Hfuel.
  - destruct fuel as [| fuel]; [simpl in Hfuel; lia |].
    simpl. rewrite (next_refuses ps row rest He Hs Hm Hw). reflexivity.
  - destruct fuel as [| fuel]; [simpl in Hfuel; lia |].
    simpl in Hb, Hm.
    destruct (as_list_or_tuple g) as [items |] eqn:Eg; [| discriminate].
    destruct (length items =? length (_params_metadata ps))%nat eqn:El;
      [| discriminate].
    destruct (bind_row (_params_metadata ps) items) as [| tuples] eqn:Eb;
      [discriminate |].
    destruct (bind_rows (_params_metadata ps) good) as [bound' |] eqn:Eg';
      [| discriminate].
    inversion Hb; subst bound. simpl in Hf.
    apply andb_true_iff in Hf as [Hf1 Hf2].
    cbn [pack_parameters].
    rewrite (next_from_source ps g (good ++ row :: rest) He Hs Hm).
    rewrite Eg, El, Eb. simpl. rewrite Hf1.
    rewrite (IH (set_multi_row_parameters (Some (good ++ row :: rest)) ps)
                (packed ++ [tuples]) bound' row rest fuel);
      try assumption; try reflexivity.
    simpl in Hfuel. lia.
Qed.

Lemma on_statement_run {A} (w : World S) sid ps (m : M PreparedStatement A) :
  cached w sid = Some ps ->
  on_statement sid m w
  = (fst (m ps),
     on_self (fun c => set_prepared_statements
                         (<[sid := snd (m ps)]> (_prepared_statements c)) c) w).
Proof.
  unfold cached, on_statement. intros H. rewrite H.
  destruct (m ps). reflexivity.
Qed.

Lemma cached_after (w : World S) sid ps :
  cached (on_self (fun c => set_prepared_statements
                              (<[sid := ps]> (_prepared_statements c)) c) w) sid
  = Some ps.
Proof. unfold cached. simpl. apply lookup_insert_eq. Qed.

End Malformed.

(** C5 as stated fails for a row that is not a list or tuple: for the
    scalar row [5] the error names the type supplied and gives no counts. *)
Lemma scalar_row_error_gives_no_counts :
  let ps := snd (PreparedStatement.prepare_parameters [PyInt 5]
                   (new_PreparedStatement 7 [one_parameter] None)) in
  fst (PreparedStatement.next ps)
  = Raise (ProgrammingError
             "Prepared statement parameters supplied as <type 'int'>, shall be list or tuple.")
  /\ ~ (exists expected supplied,
          fst (PreparedStatement.next ps)
          = Raise (ProgrammingError (msg_wrong_count expected supplied))).
Proof.
  intros ps. split; [reflexivity |].
  intros (expected & supplied & H).
  vm_compute in H. discriminate H.
Qed.

(** ** Preparing a statement *)

Section Prepare.

Context {S : Type} (env : Environment S).

Lemma scan_statement_id parts :
  forall acc,
    match fst (fst (scan_prepare_parts parts acc)) with
    | None => fst (fst acc) = None /\ forall sid, ~ In (STATEMENTID sid) parts
    | Some sid => fst (fst acc) = Some sid \/ In (STATEMENTID sid) parts
    end.
Proof.
  induction parts as [| part rest IH]; intros [[a b] c]; simpl.
  - destruct a; auto.
  - match goal with
    | |- context [scan_prepare_parts rest ?acc'] => specialize (IH acc')
    end.
    destruct (fst (fst (scan_prepare_parts rest _))) as [sid |].
    + destruct part; simpl in IH; destruct IH as [IH | IH]; auto;
        inversion IH; auto.
    + destruct IH as [IH1 IH2].
      destruct part; simpl in IH1; try discriminate;
        (split; [assumption | intros sid [H | H]; [discriminate | eapply IH2, H]]).
Qed.

Lemma scan_params_metadata parts :
  forall acc,
    match snd (fst (scan_prepare_parts parts acc)) with
    | None => snd (fst acc) = None /\ forall v, ~ In (PARAMETERMETADATA v) parts
    | Some v => snd (fst acc) = Some v \/ In (PARAMETERMETADATA v) parts
    end.
Proof.
  induction parts as [| part rest IH]; intros [[a b] c]; simpl.
  - destruct b; auto.
  - match goal with
    | |- context [scan_prepare_parts rest ?acc'] => specialize (IH acc')
    end.
    destruct (snd (fst (scan_prepare_parts rest _))) as [v |].
    + destruct part; simpl in IH; destruct IH as [IH | IH]; auto;
        inversion IH; auto.
    + destruct IH as [IH1 IH2].
      destruct part; simpl in IH1; try discriminate;
        (split; [assumption | intros v [H | H]; [discriminate | eapply IH2, H]]).
Qed.

Lemma send_request_open (w : World S) request reply s' :
  connection (self w) = Some TheConnection ->
  send env (server (conn w)) request = (reply, s') ->
  send_request env request w
  = (match reply with inl e => Raise e | inr seg => Return seg end,
     after_request request s' w).
Proof.
  intros Hc Hs. unfold send_request, bind, get. rewrite Hc, Hs.
  destruct reply; reflexivity.
Qed.

(** C7. On an open cursor whose server answers the prepare request with a
    segment: if the segment has no statement-identifier part or no
    parameter-metadata part, [prepare] raises [AssertionError] and the
    cache is as before: looking up any identifier gives what it gave
    before.  If it has both, [prepare] returns the statement identifier of
    such a part, and looking up that identifier in the cache now finds a
    prepared statement that carries the identifier and the parameter
    metadata of such a part, with no pushed rows and not at its end;
    [get_prepared_statement] on the identifier succeeds and the entries
    under other identifiers are as before. *)
Theorem prepare_needs_id_and_metadata
    (w : World S) (statement : string) (seg : Segment) (s' : S) :
  cursor_open w ->
  send env (server (conn w)) (PREPARE statement) = (inr seg, s') ->
  (((forall sid, ~ In (STATEMENTID sid) (parts seg))
    \/ (forall values, ~ In (PARAMETERMETADATA values) (parts seg))) ->
   exists w',
     prepare env statement w = (Raise AssertionError, w')
     /\ w' = after_request (PREPARE statement) s' w
     /\ forall sid, _prepared_statements (self w') !! sid
                    = _prepared_statements (self w) !! sid)
  /\ ((exists sid, In (STATEMENTID sid) (parts seg)) ->
      (exists values, In (PARAMETERMETADATA values) (parts seg)) ->
      exists sid values result_metadata w' ps,
        In (STATEMENTID sid) (parts seg)
        /\ In (PARAMETERMETADATA values) (parts seg)
        /\ prepare env statement w = (Return sid, w')
        /\ w' = cache_statement sid
                  (new_PreparedStatement sid values result_metadata)
                  (after_request (PREPARE statement) s' w)
        /\ _prepared_statements (self w') !! sid = Some ps
        /\ statement_id ps = sid
        /\ _params_metadata ps = values
        /\ result_metadata_part ps = result_metadata
        /\ _pushed_row_params ps = []
        /\ _multi_row_parameters ps = None
        /\ end_of_data ps = false
        /\ get_prepared_statement sid w' = (Return sid, w')
        /\ (forall other, other <> sid ->
            _prepared_statements (self w') !! other
            = _prepared_statements (self w) !! other)
        /\ sent (conn w') = sent (conn w) ++ [PREPARE statement]).
Proof.
  intros Ho Hs.
  assert (Hp : prepare env statement w
               = (let '(statement_id, params_metadata, result_metadata_part) :=
                    scan_prepare_parts (parts seg) (None, None, None) in
                  match statement_id with
                  | None => raise AssertionError
                  | Some statement_id =>
                      match params_metadata with
                      | None => raise AssertionError
                      | Some params_metadata =>
                          modify (cache_statement statement_id
                                    (new_PreparedStatement statement_id
                                       params_metadata result_metadata_part)) ;;
                          ret statement_id
                      end
                  end) (after_request (PREPARE statement) s' w)).
  { unfold prepare, bind at 1. rewrite (open_check w Ho).
    unfold bind at 1. rewrite (send_request_open w _ _ _ (proj1 Ho) Hs).
    reflexivity. }
  rewrite Hp. clear Hp.
  pose proof (scan_statement_id (parts seg) (None, None, None)) as Hid.
  pose proof (scan_params_metadata (parts seg) (None, None, None)) as Hpm.
  destruct (scan_prepare_parts (parts seg) (None, None, None)) as [[a b] c].
  simpl in Hid, Hpm. split.
  - intros Hno.
    exists (after_request (PREPARE statement) s' w).
    split; [| split; [reflexivity | intros sid; reflexivity]].
    destruct Hno as [Hno | Hno].
    + destruct a as [sid |]; [| reflexivity].
      destruct Hid as [Hid | Hid]; [discriminate | elim (Hno sid Hid)].
    + destruct b as [v |].
      * destruct Hpm as [Hpm | Hpm]; [discriminate | elim (Hno v Hpm)].
      * destruct a; reflexivity.
  - intros [sid0 Hin1] [v0 Hin2].
    destruct a as [sid |]; [| elim (proj2 Hid sid0 Hin1)].
    destruct b as [v |]; [| elim (proj2 Hpm v0 Hin2)].
    destruct Hid as [Hid | Hid]; [discriminate |].
    destruct Hpm as [Hpm | Hpm]; [discriminate |].
    exists sid, v, c,
      (cache_statement sid (new_PreparedStatement sid v c)
         (after_request (PREPARE statement) s' w)),
      (new_PreparedStatement sid v c).
    split; [exact Hid |]. split; [exact Hpm |].
    split; [reflexivity |]. split; [reflexivity |].
    split; [simpl; apply lookup_insert_eq |].
    split; [reflexivity |]. split; [reflexivity |]. split; [reflexivity |].
    split; [reflexivity |]. split; [reflexivity |]. split; [reflexivity |].
    split.
    { unfold get_prepared_statement, bind, get. simpl.
      rewrite lookup_insert_eq. reflexivity. }
    split; [| reflexivity].
    intros other Hne. simpl. apply lookup_insert_ne. congruence.
Qed.

End Prepare.

(** C7 on a server that answers a prepare request with a statement
    identifier and the metadata of one parameter, and on one whose answer
    lacks the parameter metadata. *)
Lemma prepare_needs_id_and_metadata_witness :
  let env := environment_of scripted in
  let statement := "INSERT INTO T VALUES (?)" in
  let w := new_World [inr prepare_reply] in
  let bare := {| function_code := INSERT; parts := [STATEMENTID 7] |} in
  let v := new_World [inr bare] in
  (exists sid values w' ps,
     In (STATEMENTID sid) (parts prepare_reply)
     /\ In (PARAMETERMETADATA values) (parts prepare_reply)
     /\ prepare env statement w = (Return sid, w')
     /\ _prepared_statements (self w') !! sid = Some ps
     /\ statement_id ps = sid
     /\ _params_metadata ps = values)
  /\ (exists v',
        prepare env statement v = (Raise AssertionError, v')
        /\ forall sid, _prepared_statements (self v') !! sid
                       = _prepared_statements (self v) !! sid)
  /\ fst (prepare env statement w) = Return 7
  /\ _prepared_statements (self (snd (prepare env statement w))) !! 7
     = Some (new_PreparedStatement 7 [one_parameter] None).
Proof.
  intros env statement w bare v. split; [| split; [| split]].
  - assert (Hid : exists sid, In (STATEMENTID sid) (parts prepare_reply))
      by (exists 7; left; reflexivity).
    assert (Hpm : exists values, In (PARAMETERMETADATA values) (parts prepare_reply))
      by (exists [one_parameter]; right; left; reflexivity).
    destruct (proj2 (prepare_needs_id_and_metadata env w statement prepare_reply []
                       (conj eq_refl eq_refl) eq_refl) Hid Hpm)
      as (sid & values & rm & w' & ps & H1 & H2 & H3 & _ & H5 & H6 & H7 & _).
    exists sid, values, w', ps. repeat split; assumption.
  - assert (Hno : (forall sid, ~ In (STATEMENTID sid) (parts bare))
                  \/ (forall values, ~ In (PARAMETERMETADATA values) (parts bare)))
      by (right; intros values [H | []]; discriminate H).
    destruct (proj1 (prepare_needs_id_and_metadata env v statement bare []
                       (conj eq_refl eq_refl) eq_refl) Hno)
      as (v' & H1 & _ & H3).
    exists v'. split; assumption.
  - reflexivity.
  - vm_compute. reflexivity.
Defined.


(** ** Data-modification responses *)

(** C2 fails on the prepared path.  A cursor runs a select, which sets its
    description, and then an insert with a parameter row, which goes
    through [prepare] and [execute_prepared]: the row count becomes the
    affected-row count of the response, but the description is still that
    of the select.  The same insert executed directly, without parameters,
    clears the description. *)
Theorem prepared_insert_keeps_the_description :
  let env := environment_of scripted in
  let w := new_World [inr select_reply; inr prepare_reply; inr insert_reply] in
  let w1 := snd (execute env 2 "SELECT A FROM T" PyNone w) in
  let w2 := snd (execute env 2 "INSERT INTO T VALUES (?)" (PyTuple [PyInt 1]) w1) in
  let v1 := snd (execute env 2 "SELECT A FROM T" PyNone
                   (new_World [inr select_reply; inr insert_reply])) in
  let v2 := snd (execute env 2 "INSERT INTO T VALUES (1)" PyNone v1) in
  description (self w1) = Some integer_description
  /\ fst (execute env 2 "INSERT INTO T VALUES (?)" (PyTuple [PyInt 1]) w1) = Return tt
  /\ sent (conn w2)
     = [EXECUTEDIRECT "SELECT A FROM T"; PREPARE "INSERT INTO T VALUES (?)";
        EXECUTE 7 [bound_one]]
  /\ rowcount (self w2) = 1
  /\ description (self w2) = Some integer_description
  /\ description (self v1) = Some integer_description
  /\ rowcount (self v2) = 1
  /\ description (self v2) = None.
Proof. vm_compute. repeat split. Qed.

(** ** The textual-substitution fallback *)

Section Fallback.

Context {S : Type} (env : Environment S).

(** A direct execution sends its request unless the cursor has no
    connection; what the response handlers do stays within the cursor. *)
Lemma _execute_direct_sent (operation : string) (w : World S) r w' :
  _execute_direct env operation w = (r, w') ->
  sent (conn w') = sent (conn w) ++ [EXECUTEDIRECT operation]
  \/ (sent (conn w') = sent (conn w) /\ r = Raise AttributeError).
Proof.
  unfold _execute_direct, bind at 1.
  destruct (connection (self w)) as [[] |] eqn:Hc.
  - destruct (send env (server (conn w)) (EXECUTEDIRECT operation))
      as [reply s'] eqn:Hs.
    rewrite (send_request_open env w _ _ _ Hc Hs).
    destruct reply as [e | seg]; intros H.
    + inversion H; subst. left. reflexivity.
    + left.
      assert (Hf : conn w' = conn (after_request (EXECUTEDIRECT operation) s' w)).
      { revert H. generalize (after_request (EXECUTEDIRECT operation) s' w).
        intros w0 H.
        destruct (function_code seg);
          simpl in H;
          try (eapply _handle_select_conn; eassumption);
          try (eapply _handle_insert_conn; eassumption);
          inversion H; reflexivity. }
      rewrite Hf. reflexivity.
  - unfold send_request, bind, get. rewrite Hc. intros H.
    inversion H; subst. right. split; reflexivity.
Qed.

(** The loop of the fallback: one direct execution per row, in order,
    each of the statement with the row substituted, until an exception
    ends the loop. *)
Lemma fallback_loop_requests (statement : string) (rows : list pyval) :
  forall w : World S,
  exists ops r w',
    for_each rows (fun row_params =>
      operation <- lift (format_operation env statement row_params) ;;
      _execute_direct env operation) w = (r, w')
    /\ sent (conn w') = sent (conn w) ++ map EXECUTEDIRECT ops
    /\ Forall2 (fun row op => format_operation env statement row = inr op)
               (firstn (length ops) rows) ops
    /\ (r = Return tt -> length ops = length rows).
Proof.
  induction rows as [| row rows IH]; intros w.
  - exists [], (Return tt), w. simpl. rewrite app_nil_r.
    repeat split; constructor.
  - simpl. unfold bind at 1. unfold bind at 1.
    destruct (format_operation env statement row) as [e | op] eqn:Hfmt; simpl.
    + exists [], (Raise e), w. simpl. rewrite app_nil_r.
      repeat split; [constructor | discriminate].
    + destruct (_execute_direct env op w) as [r1 w1] eqn:Hd.
      destruct (_execute_direct_sent op w r1 w1 Hd) as [Hs | [Hs Hr]].
      * destruct r1 as [[] | e |].
        -- destruct (IH w1) as (ops & r & w' & Hrun & Hsent & Hall & Hlen).
           exists (op :: ops), r, w'. rewrite Hrun. split; [reflexivity |].
           split; [rewrite Hsent, Hs, <- app_assoc; reflexivity |].
           split; [simpl; constructor; assumption |].
           intros Hr. simpl. rewrite (Hlen Hr). reflexivity.
        -- exists [op], (Raise e), w1. split; [reflexivity |].
           split; [exact Hs |].
           split; [simpl; repeat constructor; assumption | discriminate].
        -- exists [op], OutOfFuel, w1. split; [reflexivity |].
           split; [exact Hs |].
           split; [simpl; repeat constructor; assumption | discriminate].
      * subst r1. exists [], (Raise AttributeError), w1.
        split; [reflexivity |]. simpl. rewrite app_nil_r.
        split; [exact Hs |]. split; [constructor | discriminate].
Qed.

End Fallback.


(** ** The fetch engine *)

Section Fetch.

Context {S : Type} (env : Environment S).

Lemma dequeue_spec (buffer : list Row) :
  forall _missing _result,
    dequeue buffer _missing _result
    = (skipn (Nat.min (length buffer) (Z.to_nat _missing)) buffer,
       _missing - Z.of_nat (Nat.min (length buffer) (Z.to_nat _missing)),
       _result ++ firstn (Nat.min (length buffer) (Z.to_nat _missing)) buffer).
Proof.
  induction buffer as [| row rest IH]; intros m res.
  - simpl. rewrite app_nil_r. f_equal. f_equal. lia.
  - simpl dequeue. destruct (0 <? m) eqn:Hm.
    + apply Z.ltb_lt in Hm. rewrite IH.
      replace (Z.to_nat m) with (Datatypes.S (Z.to_nat (m - 1))) by lia.
      simpl. rewrite <- app_assoc. simpl.
      f_equal. f_equal. lia.
    + apply Z.ltb_ge in Hm.
      replace (Z.to_nat m) with 0%nat by lia.
      rewrite Nat.min_0_r. simpl. rewrite app_nil_r. f_equal. f_equal. lia.
Qed.

(** [fetchmany] on an open, executed cursor, spelled out. *)
Lemma fetchmany_open (w : World S) (size : option Z) :
  cursor_open w ->
  _executed (self w) = true ->
  let n := effective_size size w in
  let k := taken size w in
  let w0 := on_self (set_buffer (skipn k (_buffer (self w)))) w in
  fetchmany env size w
  = if (n - Z.of_nat k =? 0) || flag_set (_received_last_resultset_part (self w))
    then (Return (firstn k (_buffer (self w))), w0)
    else
      match _resultset_id (self w) with
      | None => (Raise AttributeError, w0)
      | Some id =>
          let request := FETCHNEXT id (n - Z.of_nat k) in
          match send env (server (conn w)) request with
          | (inl e, s') => (Raise e, after_request request s' w0)
          | (inr seg, s') =>
              match nth_error (parts seg) 1 with
              | None => (Raise IndexError, after_request request s' w0)
              | Some (RESULTSET attribute rows) =>
                  (Return (firstn k (_buffer (self w)) ++ rows),
                   note_last_part attribute (after_request request s' w0))
              | Some _ => (Raise AttributeError, after_request request s' w0)
              end
          end
      end.
Proof.
  intros Ho He n k w0. subst n k w0. unfold taken.
  unfold fetchmany, bind at 1. rewrite (open_check w Ho).
  unfold bind at 1, get. rewrite He. cbn [negb].
  fold (effective_size size w).
  rewrite dequeue_spec. cbn [app].
  unfold bind at 1, modify.
  destruct ((effective_size size w - _ =? 0) || _); [reflexivity |].
  destruct (_resultset_id (self w)) as [id |]; [| reflexivity].
  unfold bind at 1, ret. unfold bind at 1.
  match goal with
  | |- context [send_request env ?req ?w0] =>
      destruct (send env (server (conn w)) req) as [reply s'] eqn:Hs;
      rewrite (send_request_open env w0 req reply s' (proj1 Ho) Hs)
  end.
  destruct reply as [e | seg]; [reflexivity |].
  destruct (nth_error (parts seg) 1) as [[] |]; try reflexivity.
  unfold note_last_part, bind, modify, ret.
  destruct (negb _); reflexivity.
Qed.

Lemma ready_or_not (w : World S) :
  (cursor_open w /\ _executed (self w) = true)
  \/ ~ (cursor_open w /\ _executed (self w) = true).
Proof.
  unfold cursor_open.
  destruct (connection (self w)) as [[] |], (closed (conn w)),
    (_executed (self w));
    first [left; auto; fail | right; intros [[? ?] ?]; congruence].
Qed.

Lemma check_returns_open (w : World S) a w' :
  _check_closed w = (Return a, w') -> cursor_open w.
Proof.
  unfold _check_closed, bind, get, cursor_open.
  destruct (connection (self w)) as [[] |]; [| discriminate].
  destruct (closed (conn w)); [discriminate |]. auto.
Qed.

(** Without an open, executed cursor [fetchmany] changes nothing. *)
Lemma fetchmany_not_ready (w : World S) (size : option Z) r w' :
  fetchmany env size w = (r, w') ->
  ~ (cursor_open w /\ _executed (self w) = true) ->
  w' = w /\ forall rows, r <> Return rows.
Proof.
  unfold fetchmany, bind at 1. intros H Hn.
  destruct (_check_closed w) as [[[] | e |] w1] eqn:Hc.
  - pose proof (_check_closed_state w _ _ Hc); subst w1.
    unfold bind at 1, get in H.
    destruct (_executed (self w)) eqn:He.
    + elim Hn. split; [eapply check_returns_open; eassumption | reflexivity].
    + inversion H. split; [reflexivity | discriminate].
  - pose proof (_check_closed_state w _ _ Hc); subst w1.
    inversion H. split; [reflexivity | discriminate].
  - pose proof (_check_closed_state w _ _ Hc); subst w1.
    inversion H. split; [reflexivity | discriminate].
Qed.

Lemma note_last_part_conn attribute (w : World S) :
  conn (note_last_part attribute w) = conn w.
Proof. unfold note_last_part. destruct (negb _); reflexivity. Qed.

Lemma taken_le_size (w : World S) size :
  0 <= effective_size size w -> Z.of_nat (taken size w) <= effective_size size w.
Proof. unfold taken. lia. Qed.

(** C3, as the code has it.  A call of [fetchmany] sends no request or
    exactly one, a continuation request; and when the size it works with
    is not negative and the server honours the fetch size, the list it
    returns has at most that many rows. *)
Theorem fetchmany_one_request_bounded_rows
    (w : World S) (size : option Z) (r : outcome (list Row)) (w' : World S) :
  fetchmany env size w = (r, w') ->
  (sent (conn w') = sent (conn w)
   \/ exists id m, sent (conn w') = sent (conn w) ++ [FETCHNEXT id m])
  /\ (0 <= effective_size size w ->
      honours_fetch_size env (server (conn w)) ->
      forall rows, r = Return rows ->
                   Z.of_nat (length rows) <= effective_size size w).
Proof.
  intros H.
  destruct (ready_or_not w) as [[Ho He] | Hn].
  2:{ destruct (fetchmany_not_ready w size r w' H Hn) as [-> Hr].
      split; [left; reflexivity |]. intros _ _ rows Hrows. elim (Hr rows Hrows). }
  rewrite (fetchmany_open w size Ho He) in H. cbv zeta in H.
  pose proof (firstn_le_length (taken size w) (_buffer (self w))) as Hk.
  destruct ((effective_size size w - Z.of_nat (taken size w) =? 0) || _) eqn:Hstop.
  { inversion H; subst. split; [left; reflexivity |].
    intros Hsize _ rows Hrows. inversion Hrows; subst.
    pose proof (taken_le_size w size Hsize). lia. }
  destruct (_resultset_id (self w)) as [id |].
  2:{ inversion H; subst. split; [left; reflexivity |]. discriminate. }
  destruct (send env (server (conn w)) _) as [[e | seg] s'] eqn:Hs.
  { inversion H; subst. split; [right; eauto |]. discriminate. }
  destruct (nth_error (parts seg) 1) as [part |] eqn:Hp.
  2:{ inversion H; subst. split; [right; eauto |]. discriminate. }
  destruct part; inversion H; subst;
    (split; [right; rewrite ?note_last_part_conn; simpl; eauto |]);
    try discriminate.
  intros Hsize Hh res Hres. inversion Hres; subst.
  apply orb_false_iff in Hstop as [Hz _]. apply Z.eqb_neq in Hz.
  pose proof (taken_le_size w size Hsize) as Ht.
  assert (Hm : 0 < effective_size size w - Z.of_nat (taken size w)) by lia.
  pose proof (Hh _ _ _ _ _ _ Hm Hs Hp) as Hrows.
  rewrite length_app. lia.
Qed.

End Fetch.

(** C3 as stated fails when the server sends more rows than asked for:
    [fetchmany(1)] on an empty buffer sends one continuation request for one
    row and returns the three rows of the answer. *)
Lemma eager_server_overfills_fetchmany :
  let w := fetching_World tt [] 0 1 in
  exists w',
    fetchmany (environment_of eager_server) (Some 1) w
    = (Return [[PyInt 1]; [PyInt 2]; [PyInt 3]], w')
    /\ sent (conn w') = [FETCHNEXT 1 1]
    /\ ~ (Z.of_nat (length [[PyInt 1]; [PyInt 2]; [PyInt 3]]) <= 1).
Proof.
  intros w.
  exists (snd (fetchmany (environment_of eager_server) (Some 1) w)).
  split; [reflexivity |]. split; [reflexivity |].
  simpl. lia.
Qed.

Lemma resultset_server_honours chunk columns remaining :
  honours_fetch_size (environment_of (resultset_server chunk columns)) remaining.
Proof.
  intros id m seg s' attribute rows Hm Hs Hp.
  simpl in Hs. inversion Hs; subst. simpl in Hp. inversion Hp; subst.
  pose proof (firstn_le_length (Nat.min chunk (Z.to_nat m)) remaining). lia.
Defined.

(** C3 on a cursor with one buffered row and array size 3, whose server
    holds three more rows and sends at most two at a time. *)
Lemma fetchmany_one_request_bounded_rows_witness :
  let env := environment_of (resultset_server 2 [integer_column]) in
  let w := fetching_World [[PyInt 2]; [PyInt 3]; [PyInt 4]] [[PyInt 1]] 0 3 in
  fetchmany env None w
  = (Return [[PyInt 1]; [PyInt 2]; [PyInt 3]],
     snd (fetchmany env None w))
  /\ (sent (conn (snd (fetchmany env None w))) = sent (conn w)
      \/ exists id m,
           sent (conn (snd (fetchmany env None w)))
           = sent (conn w) ++ [FETCHNEXT id m])
  /\ forall rows,
       Return [[PyInt 1]; [PyInt 2]; [PyInt 3]] = Return rows ->
       Z.of_nat (length rows) <= 3.
Proof.
  intros env w. split; [reflexivity |].
  destruct (fetchmany_one_request_bounded_rows env w None
              (Return [[PyInt 1]; [PyInt 2]; [PyInt 3]])
              (snd (fetchmany env None w)) eq_refl) as [H1 H2].
  split; [exact H1 |].
  apply H2.
  - simpl. lia.
  - apply resultset_server_honours.
Defined.

(** ** Fetching a whole result set *)

Section Partition.

Context {S : Type} (env : Environment S) (pending : S -> list Row).

Hypothesis server_serves : serves_resultset env pending.

(** One call of [fetchmany] during a select: it returns the next
    outstanding rows and leaves the cursor ready for the next call. *)
Lemma fetchmany_step (w : World S) (size : option Z) :
  fetching pending w ->
  0 <= effective_size size w ->
  exists chunk w',
    fetchmany env size w = (Return chunk, w')
    /\ fetching pending w'
    /\ chunk ++ outstanding pending w' = outstanding pending w
    /\ arraysize (self w') = arraysize (self w)
    /\ (fetches_left pending w' <= fetches_left pending w)%nat
    /\ (1 <= effective_size size w -> more_to_fetch w = true ->
        (fetches_left pending w' < fetches_left pending w)%nat).
Proof.
  intros (Ho & He & [id Hid] & Hlast) Hsize.
  rewrite (fetchmany_open env w size Ho He). cbv zeta.
  destruct Ho as [Hc Hcl].
  set (n := effective_size size w) in *.
  set (k := taken size w).
  assert (Hk : k = Nat.min (length (_buffer (self w))) (Z.to_nat n)) by reflexivity.
  unfold fetches_left, outstanding, more_to_fetch.
  destruct ((n - Z.of_nat k =? 0) || flag_set _) eqn:Hstop.
  - (* served from the buffer *)
    eexists _, _. split; [reflexivity |]. cbn [self conn on_self _buffer set_buffer
      _received_last_resultset_part arraysize server].
    split; [unfold fetching, cursor_open; simpl; repeat split; eauto |].
    split; [rewrite app_assoc, firstn_skipn; reflexivity |].
    split; [reflexivity |].
    rewrite !length_app, length_skipn.
    split; [lia |].
    intros Hn Hmore.
    destruct (_buffer (self w)) as [| row buffer] eqn:Hb.
    + simpl in Hmore, Hk. rewrite Hk in Hstop. simpl in Hstop.
      destruct (flag_set _); [discriminate |].
      apply orb_true_iff in Hstop as [Hz | Hz]; [| discriminate].
      apply Z.eqb_eq in Hz. lia.
    + cbn [length] in Hk |- *. clearbody k.
      destruct (flag_set _); lia.
  - (* one continuation request *)
    apply orb_false_iff in Hstop as [Hz Hflag]. apply Z.eqb_neq in Hz.
    assert (Hkl : k = length (_buffer (self w))) by lia.
    assert (Hm : 0 < n - Z.of_nat k) by lia.
    rewrite Hid.
    destruct (server_serves (server (conn w)) id (n - Z.of_nat k) Hm)
      as (seg & s' & attribute & j & Hs & Hp & Hpend & Hbit & Hprog).
    cbv zeta. rewrite Hs, Hp.
    eexists _, _. split; [reflexivity |].
    rewrite Hkl, firstn_all, skipn_all.
    unfold note_last_part, flag_set in *.
    destruct (negb (Z.land attribute 1 =? 0)) eqn:Hattr;
      cbn [self conn on_self after_request _buffer set_buffer
           _received_last_resultset_part set_received_last_resultset_part
           arraysize server _executed _resultset_id connection closed app].
    + assert (Hnil : pending s' = []) by (apply Hbit; reflexivity).
      split; [unfold fetching, cursor_open; simpl; repeat split; eauto |].
      rewrite Hnil, Hflag. rewrite Hnil in Hpend.
      split; [rewrite <- (firstn_skipn j (pending (server (conn w)))) at 2;
              rewrite <- Hpend, !app_nil_r; reflexivity |].
      split; [reflexivity |]. simpl. rewrite length_app. lia.
    + split; [unfold fetching, cursor_open, flag_set; simpl;
              repeat split; eauto;
              intros Hf; rewrite Hflag in Hf; discriminate |].
      rewrite Hflag, Hpend.
      split; [rewrite <- app_assoc, firstn_skipn; reflexivity |].
      split; [reflexivity |].
      rewrite !length_app, length_skipn. simpl.
      split; [lia |].
      intros _ _.
      destruct (_buffer (self w)) as [| row buffer]; [| simpl; lia].
      destruct (pending (server (conn w))) as [| p ps] eqn:Hpw.
      * rewrite skipn_nil in Hpend.
        apply Hbit in Hpend. discriminate.
      * assert (0 < j)%nat by (apply Hprog; discriminate). simpl. lia.
Qed.

Lemma no_more_outstanding (w : World S) :
  fetching pending w ->
  more_to_fetch w = false ->
  outstanding pending w = [] /\ fetches_left pending w = 0%nat.
Proof.
  intros (_ & _ & _ & Hlast) Hmore.
  unfold more_to_fetch, outstanding, fetches_left, outstanding in *.
  apply orb_false_iff in Hmore as [Hb Hf].
  apply negb_false_iff in Hf. rewrite Hf, (Hlast Hf).
  destruct (_buffer (self w)); [split; reflexivity | discriminate].
Qed.

Lemma fetchmany_each_partition (sizes : list Z) :
  forall w : World S,
    fetching pending w ->
    Forall (fun n => 0 <= n) sizes ->
    exists chunks w',
      fetchmany_each env sizes w = (Return chunks, w')
      /\ length chunks = length sizes
      /\ fetching pending w'
      /\ concat chunks ++ outstanding pending w' = outstanding pending w.
Proof.
  induction sizes as [| n sizes IH]; intros w Hw Hall.
  - exists [], w.
    split; [reflexivity |]. split; [reflexivity |].
    split; [assumption | reflexivity].
  - inversion Hall as [| ? ? Hn Hrest]; subst.
    destruct (fetchmany_step w (Some n) Hw Hn)
      as (chunk & w1 & Hf & Hw1 & Hout & _).
    destruct (IH w1 Hw1 Hrest) as (chunks & w' & Hrun & Hlen & Hw' & Hcat).
    exists (chunk :: chunks), w'.
    split; [simpl; unfold bind at 1; rewrite Hf; unfold bind at 1;
            rewrite Hrun; reflexivity |].
    split; [simpl; rewrite Hlen; reflexivity |].
    split; [assumption |].
    simpl. rewrite <- app_assoc, Hcat. exact Hout.
Qed.

Lemma fetchall_loop_step (fuel : nat) (result : list Row) (w : World S) :
  fetchall_loop env fuel result w
  = if more_to_fetch w
    then match fuel with
         | O => (OutOfFuel, w)
         | Datatypes.S fuel' =>
             (more <- fetchmany env None ;;
              fetchall_loop env fuel' (result ++ more)) w
         end
    else (Return result, w).
Proof.
  destruct fuel; simpl; unfold bind at 1, get, more_to_fetch;
    destruct (_ || _); reflexivity.
Qed.

Lemma fetchall_loop_returns (fuel : nat) :
  forall (w : World S) (result : list Row),
    fetching pending w ->
    1 <= arraysize (self w) ->
    (fetches_left pending w <= fuel)%nat ->
    exists w',
      fetchall_loop env fuel result w
      = (Return (result ++ outstanding pending w), w').
Proof.
  induction fuel as [| fuel IH]; intros w result Hw Hsize Hfuel;
    rewrite fetchall_loop_step;
    destruct (more_to_fetch w) eqn:Hmore.
  - exfalso. unfold more_to_fetch, fetches_left, outstanding in *.
    rewrite length_app in Hfuel.
    destruct (_buffer (self w)); simpl in *;
      [destruct (flag_set _); [discriminate | lia] | lia].
  - exists w. rewrite (proj1 (no_more_outstanding w Hw Hmore)), app_nil_r.
    reflexivity.
  - destruct (fetchmany_step w None Hw) as (chunk & w1 & Hf & Hw1 & Hout & Ha & _ & Hless);
      [simpl; lia |].
    specialize (Hless Hsize Hmore).
    destruct (IH w1 (result ++ chunk) Hw1) as [w' Hrun]; [lia | lia |].
    exists w'. unfold bind at 1. rewrite Hf, Hrun, <- app_assoc, Hout.
    reflexivity.
  - exists w. rewrite (proj1 (no_more_outstanding w Hw Hmore)), app_nil_r.
    reflexivity.
Qed.

(** C4, as the code has it.  Take a cursor in the middle of a select on a
    server that serves the result set.  Repeated [fetchmany] calls with
    sizes that are not negative return chunks that, one after the other
    and followed by the rows still outstanding, are the rows that were
    outstanding at the start: no row is skipped and none comes twice.
    And for every array size of at least 1, [fetchall] returns, given fuel
    for its loop, exactly the rows that were outstanding: the same
    sequence whatever the array size. *)
Theorem fetches_partition_the_result_set (w : World S) :
  fetching pending w ->
  (forall sizes,
      Forall (fun n => 0 <= n) sizes ->
      exists chunks w',
        fetchmany_each env sizes w = (Return chunks, w')
        /\ length chunks = length sizes
        /\ concat chunks ++ outstanding pending w' = outstanding pending w)
  /\ (forall size fuel,
        1 <= size ->
        (length (outstanding pending w) < fuel)%nat ->
        exists w',
          fetchall env fuel (on_self (set_arraysize size) w)
          = (Return (outstanding pending w), w')).
Proof.
  intros Hw. split.
  - intros sizes Hall.
    destruct (fetchmany_each_partition sizes w Hw Hall)
      as (chunks & w' & Hrun & Hlen & _ & Hcat).
    exists chunks, w'. auto.
  - intros size fuel Hsize Hfuel.
    set (v := on_self (set_arraysize size) w).
    assert (Hv : fetching pending v) by exact Hw.
    destruct (fetchmany_step v None Hv) as (chunk & w1 & Hf & Hw1 & Hout & Ha & Hle & _);
      [simpl; lia |].
    destruct (fetchall_loop_returns fuel w1 chunk Hw1) as [w' Hrun].
    + rewrite Ha. simpl. lia.
    + assert (fetches_left pending v <= Datatypes.S (length (outstanding pending w)))%nat.
      { unfold fetches_left. change (outstanding pending v) with (outstanding pending w).
        destruct (flag_set _); lia. }
      lia.
    + exists w'. unfold fetchall, bind at 1. rewrite Hf, Hrun, Hout. reflexivity.
Qed.

End Partition.

Lemma resultset_server_serves chunk columns :
  (0 < chunk)%nat ->
  serves_resultset (environment_of (resultset_server chunk columns)) (fun s => s).
Proof.
  intros Hchunk s id m Hm.
  exists {| function_code := OTHERCODE 10;
            parts := [RESULTSETID 1;
                      RESULTSET (last_chunk_bit (skipn (Nat.min chunk (Z.to_nat m)) s))
                                (firstn (Nat.min chunk (Z.to_nat m)) s)] |},
         (skipn (Nat.min chunk (Z.to_nat m)) s),
         (last_chunk_bit (skipn (Nat.min chunk (Z.to_nat m)) s)),
         (Nat.min chunk (Z.to_nat m)).
  split; [reflexivity |]. split; [reflexivity |]. split; [reflexivity |].
  split.
  - destruct (skipn _ s); simpl; split; intros H; try reflexivity; discriminate.
  - intros _. lia.
Qed.

(** C4 on seven rows, a server that sends three rows at a time, and a
    cursor that has executed the select: [fetchall] returns the seven rows
    for every array size from 1 on, three [fetchmany] calls take rows in
    order, and with array size 3 [fetchall] needs two continuation
    requests. *)
Lemma fetches_partition_the_result_set_witness :
  let env := environment_of (resultset_server 3 [integer_column]) in
  let w := snd (execute env 0 "SELECT A FROM T" PyNone (new_World seven_rows)) in
  (forall size, 1 <= size ->
     exists w', fetchall env 8 (on_self (set_arraysize size) w)
                = (Return seven_rows, w'))
  /\ (exists chunks w',
        fetchmany_each env [2; 0; 4] w = (Return chunks, w')
        /\ length chunks = 3%nat
        /\ concat chunks ++ outstanding (fun s => s) w' = seven_rows)
  /\ fetchmany_each env [2; 0; 4] w
     = (Return [[[PyInt 1]; [PyInt 2]]; []; [[PyInt 3]; [PyInt 4]; [PyInt 5]; [PyInt 6]]],
        snd (fetchmany_each env [2; 0; 4] w))
  /\ sent (conn (snd (fetchall env 8 (on_self (set_arraysize 3) w))))
     = [EXECUTEDIRECT "SELECT A FROM T"; FETCHNEXT 1 3; FETCHNEXT 1 3].
Proof.
  intros env w.
  assert (Hw : fetching (fun s => s) w).
  { split; [split; reflexivity |]. split; [reflexivity |].
    split; [exists 1; reflexivity |]. intros H. discriminate H. }
  destruct (fetches_partition_the_result_set env (fun s => s)
              (resultset_server_serves 3 [integer_column] (Nat.lt_0_succ 2)) w Hw)
    as [H1 H2].
  split; [| split; [| split]].
  - intros size Hsize. apply (H2 size 8%nat Hsize). simpl. lia.
  - apply (H1 [2; 0; 4]). repeat constructor; lia.
  - vm_compute. reflexivity.
  - vm_compute. reflexivity.
Defined.

Section Stuck.

Context {S : Type} (env : Environment S).

(** When [fetchmany] returns nothing and changes nothing while the loop
    of [fetchall] has to go on, the loop never ends. *)
Lemma fetchall_loop_stuck (w : World S) :
  fetchmany env None w = (Return [], w) ->
  more_to_fetch w = true ->
  forall fuel result, fetchall_loop env fuel result w = (OutOfFuel, w).
Proof.
  intros Hf Hmore fuel. induction fuel as [| fuel IH]; intros result;
    rewrite fetchall_loop_step, Hmore; [reflexivity |].
  unfold bind at 1. rewrite Hf. apply IH.
Qed.

End Stuck.

(** C4 as stated fails for the array size 0.  With one row in the buffer
    and the last part received, [fetchall] returns the row when the array
    size is 1; when it is 0, every [fetchmany] returns the empty list, the
    buffer never empties, and [fetchall] does not return, however much fuel
    its loop is given. *)
Lemma fetchall_with_arraysize_zero_never_returns :
  let env := environment_of (resultset_server 3 [integer_column]) in
  let w := fetching_World [] [[PyInt 1]] 1 1 in
  (exists w', fetchall env 1 w = (Return [[PyInt 1]], w'))
  /\ ~ (exists fuel rows w',
          fetchall env fuel (on_self (set_arraysize 0) w) = (Return rows, w')).
Proof.
  intros env w. split.
  - exists (snd (fetchall env 1 w)). reflexivity.
  - intros (fuel & rows & w' & H).
    unfold fetchall, bind at 1 in H.
    change (fetchmany env None (on_self (set_arraysize 0) w))
      with (Return ([] : list Row), on_self (set_arraysize 0) w) in H.
    cbv beta iota in H.
    rewrite (fetchall_loop_stuck env (on_self (set_arraysize 0) w)
               eq_refl eq_refl fuel) in H.
    discriminate H.
Qed.

(** * Further properties of the cursor *)

(** ** Direct execution *)

Section Direct.

Context {S : Type} (env : Environment S).

(** A direct execution on a cursor with a connection: the request goes out,
    and the answer decides what happens next. *)
Lemma _execute_direct_open (operation : string) (w : World S) reply s' :
  connection (self w) = Some TheConnection ->
  send env (server (conn w)) (EXECUTEDIRECT operation) = (reply, s') ->
  _execute_direct env operation w
  = match reply with
    | inl e => (Raise e, after_request (EXECUTEDIRECT operation) s' w)
    | inr response =>
        (if match function_code response with SELECT => true | _ => false end
         then _handle_select env (parts response)
         else if in_DML (function_code response)
              then _handle_insert (parts response)
              else if match function_code response with DDL => true | _ => false end
                   then ret tt
                   else raise (InterfaceError
                                 "Invalid or unsupported function code received"))
          (after_request (EXECUTEDIRECT operation) s' w)
    end.
Proof.
  intros Hc Hs. unfold _execute_direct, bind at 1.
  rewrite (send_request_open env w _ reply s' Hc Hs).
  destruct reply; reflexivity.
Qed.

Lemma execute_without_parameters (fuel : nat) statement parameters (w : World S) :
  cursor_open w ->
  truthy parameters = false ->
  execute env fuel statement parameters w = _execute_direct env statement w.
Proof.
  intros Ho Ht. unfold execute, bind at 1. rewrite (open_check w Ho), Ht.
  reflexivity.
Qed.

(** X1. On an open cursor, [execute] with parameters that are absent or
    empty sends exactly one request, the direct execution of the statement
    text as it is; no prepare request is sent, whatever the server
    answers. *)
Theorem execute_without_parameters_sends_one_direct_request
    (fuel : nat) (statement : string) (parameters : pyval) (w : World S) :
  cursor_open w ->
  truthy parameters = false ->
  exists r w',
    execute env fuel statement parameters w = (r, w')
    /\ sent (conn w') = sent (conn w) ++ [EXECUTEDIRECT statement].
Proof.
  intros Ho Ht. rewrite (execute_without_parameters fuel _ _ w Ho Ht).
  destruct (send env (server (conn w)) (EXECUTEDIRECT statement))
    as [reply s'] eqn:Hs.
  rewrite (_execute_direct_open statement w reply s' (proj1 Ho) Hs).
  destruct reply as [e | response].
  - eexists _, _. split; reflexivity.
  - match goal with
    | |- context [?m (after_request ?req s' w)] =>
        destruct (m (after_request req s' w)) as [r w'] eqn:Hm
    end.
    exists r, w'. split; [reflexivity |].
    assert (Hf : conn w' = conn (after_request (EXECUTEDIRECT statement) s' w)).
    { destruct (function_code response); simpl in Hm;
        try (eapply _handle_select_conn; eassumption);
        try (eapply _handle_insert_conn; eassumption);
        inversion Hm; reflexivity. }
    rewrite Hf. reflexivity.
Qed.

(** X2. When the answer to a direct execution is a select with its four
    parts and every column type has a codec, [execute] returns and the
    cursor holds the new result: the buffer is exactly the rows of the
    answer, whatever it held before, the row count is -1, the description
    and the result-set identifier are those of the answer, the last-part
    flag is bit 0 of the part's attribute, and the cursor is executed.  The
    array size, the cached statements and the connection reference are as
    before. *)
Theorem select_replaces_the_buffer
    (fuel : nat) (statement : string) (parameters : pyval) (w : World S)
    (columns : list Column) (id : Z) (context : Part) (attribute : Z)
    (rows : list Row) (s' : S) :
  cursor_open w ->
  truthy parameters = false ->
  send env (server (conn w)) (EXECUTEDIRECT statement)
  = (inr {| function_code := SELECT;
            parts := [RESULTSETMETADATA columns; RESULTSETID id; context;
                      RESULTSET attribute rows] |}, s') ->
  Forall (fun column => by_type_code env (column_1 column) = true) columns ->
  exists w',
    execute env fuel statement parameters w = (Return tt, w')
    /\ _buffer (self w') = rows
    /\ rowcount (self w') = -1
    /\ description (self w') = Some (map describe columns)
    /\ _column_types (self w') = Some (map column_1 columns)
    /\ _resultset_id (self w') = Some id
    /\ _received_last_resultset_part (self w') = Z.land attribute 1
    /\ _executed (self w') = true
    /\ arraysize (self w') = arraysize (self w)
    /\ _prepared_statements (self w') = _prepared_statements (self w)
    /\ connection (self w') = connection (self w)
    /\ conn w' = conn (after_request (EXECUTEDIRECT statement) s' w).
Proof.
  intros Ho Ht Hs Hk. rewrite (execute_without_parameters fuel _ _ w Ho Ht).
  rewrite (_execute_direct_open statement w _ s' (proj1 Ho) Hs).
  cbn [function_code parts].
  assert (Hmeta : _handle_result_metadata env columns
                  = inr (map describe columns, map column_1 columns)).
  { clear Hs. induction Hk as [| column columns Hc _ IH]; [reflexivity |].
    simpl. rewrite Hc, IH. reflexivity. }
  unfold _handle_select, bind at 1. unfold modify at 1.
  unfold bind at 1. unfold ret at 1. unfold bind at 1. rewrite Hmeta.
  eexists. split; [reflexivity |]. repeat split; reflexivity.
Qed.

(** X3. When the answer to a direct execution has a data-modification code
    and starts with a rows-affected part, [execute] returns, the row count
    is the first value of that part and the description is absent; the
    buffer and the executed flag are as before.  A cursor that was not
    executed is still not, so that [fetchmany] on it raises
    [ProgrammingError("Require execute() first")]. *)
Theorem direct_insert_sets_count_not_executed
    (fuel : nat) (statement : string) (parameters : pyval) (w : World S)
    (code : FunctionCode) (v : Z) (values : list Z) (others : list Part) (s' : S) :
  cursor_open w ->
  truthy parameters = false ->
  in_DML code = true ->
  send env (server (conn w)) (EXECUTEDIRECT statement)
  = (inr {| function_code := code;
            parts := ROWSAFFECTED (v :: values) :: others |}, s') ->
  exists w',
    execute env fuel statement parameters w = (Return tt, w')
    /\ rowcount (self w') = v
    /\ description (self w') = None
    /\ _buffer (self w') = _buffer (self w)
    /\ _executed (self w') = _executed (self w)
    /\ (_executed (self w) = false ->
        forall size,
          fetchmany env size w'
          = (Raise (ProgrammingError "Require execute() first"), w')).
Proof.
  intros Ho Ht Hd Hs. rewrite (execute_without_parameters fuel _ _ w Ho Ht).
  rewrite (_execute_direct_open statement w _ s' (proj1 Ho) Hs).
  cbn [function_code parts]. rewrite Hd.
  assert (Hsel : match code with SELECT => true | _ => false end = false)
    by (destruct code; try reflexivity; discriminate Hd).
  rewrite Hsel.
  eexists. split; [reflexivity |]. repeat split; try reflexivity.
  intros He size. unfold fetchmany, bind at 1.
  rewrite open_check; [| exact Ho].
  unfold bind at 1, get. cbn [self on_self _executed set_description set_rowcount
                              after_request]. rewrite He. reflexivity.
Qed.

(** X4. When the answer to a direct execution has the schema-definition
    code, [execute] returns and no attribute of the cursor has changed; when
    it has a code that is neither select, data modification nor schema
    definition, [execute] raises [InterfaceError], after the request has
    been sent, and no attribute of the cursor has changed either. *)
Theorem other_function_codes_leave_the_cursor
    (fuel : nat) (statement : string) (parameters : pyval) (w : World S)
    (response : Segment) (s' : S) :
  cursor_open w ->
  truthy parameters = false ->
  send env (server (conn w)) (EXECUTEDIRECT statement) = (inr response, s') ->
  (function_code response = DDL ->
   execute env fuel statement parameters w
   = (Return tt, after_request (EXECUTEDIRECT statement) s' w))
  /\ (forall code, function_code response = OTHERCODE code ->
      execute env fuel statement parameters w
      = (Raise (InterfaceError "Invalid or unsupported function code received"),
         after_request (EXECUTEDIRECT statement) s' w)).
Proof.
  intros Ho Ht Hs. rewrite (execute_without_parameters fuel _ _ w Ho Ht).
  rewrite (_execute_direct_open statement w _ s' (proj1 Ho) Hs).
  split; [intros Hc | intros code Hc]; rewrite Hc; reflexivity.
Qed.

End Direct.

Lemma execute_without_parameters_sends_one_direct_request_witness :
  let env := environment_of scripted in
  let w := new_World [inr select_reply] in
  exists r w',
    execute env 0 "SELECT A FROM T" (PyTuple []) w = (r, w')
    /\ sent (conn w') = [EXECUTEDIRECT "SELECT A FROM T"].
Proof.
  intros env w.
  apply (execute_without_parameters_sends_one_direct_request env 0
           "SELECT A FROM T" (PyTuple []) w (conj eq_refl eq_refl) eq_refl).
Defined.

Lemma select_replaces_the_buffer_witness :
  let env := environment_of scripted in
  let w := fetching_World [inr select_reply] [[PyInt 8]; [PyInt 9]] 0 1 in
  exists w',
    execute env 0 "SELECT A FROM T" PyNone w = (Return tt, w')
    /\ _buffer (self w') = [[PyInt 1]]
    /\ description (self w') = Some integer_description
    /\ _received_last_resultset_part (self w') = 1.
Proof.
  intros env w.
  destruct (select_replaces_the_buffer env 0 "SELECT A FROM T" PyNone w
              [integer_column] 1 STATEMENTCONTEXT 1 [[PyInt 1]] []
              (conj eq_refl eq_refl) eq_refl eq_refl
              ltac:(repeat constructor))
    as (w' & Hrun & Hb & _ & Hd & _ & _ & Hl & _).
  exists w'. split; [exact Hrun |]. split; [exact Hb |].
  split; [exact Hd | exact Hl].
Defined.

Lemma direct_insert_sets_count_not_executed_witness :
  let env := environment_of scripted in
  let w := new_World [inr insert_reply] in
  exists w',
    execute env 0 "INSERT INTO T VALUES (1)" PyNone w = (Return tt, w')
    /\ rowcount (self w') = 1
    /\ fetchmany env None w'
       = (Raise (ProgrammingError "Require execute() first"), w').
Proof.
  intros env w.
  destruct (direct_insert_sets_count_not_executed env 0
              "INSERT INTO T VALUES (1)" PyNone w INSERT 1 [] [] []
              (conj eq_refl eq_refl) eq_refl eq_refl eq_refl)
    as (w' & Hrun & Hr & _ & _ & _ & Hf).
  exists w'. split; [exact Hrun |]. split; [exact Hr |].
  apply Hf. reflexivity.
Defined.

Lemma other_function_codes_leave_the_cursor_witness :
  let env := environment_of scripted in
  let w := new_World [inr ddl_reply] in
  let v := new_World [inr commit_reply] in
  execute env 0 "CREATE TABLE T (A INTEGER)" PyNone w
  = (Return tt, after_request (EXECUTEDIRECT "CREATE TABLE T (A INTEGER)") [] w)
  /\ execute env 0 "COMMIT" PyNone v
     = (Raise (InterfaceError "Invalid or unsupported function code received"),
        after_request (EXECUTEDIRECT "COMMIT") [] v).
Proof.
  intros env w v. split.
  - apply (other_function_codes_leave_the_cursor env 0
             "CREATE TABLE T (A INTEGER)" PyNone w ddl_reply []
             (conj eq_refl eq_refl) eq_refl eq_refl).
    reflexivity.
  - apply (other_function_codes_leave_the_cursor env 0 "COMMIT" PyNone v
             commit_reply [] (conj eq_refl eq_refl) eq_refl eq_refl) with (code := 11).
    reflexivity.
Defined.

(** ** Fetching from the buffer and from the server *)

Section Buffer.

Context {S : Type} (env : Environment S).




(** X6. On an open, executed cursor that has not received the last part
    and whose buffer holds fewer than [n] rows, [fetchmany(n)] sends one
    continuation request, for the active result set and for the number of
    rows that are missing, and leaves the buffer empty.  If the connection
    raises, that exception comes out of [fetchmany] and the rows taken from
    the buffer are lost; if the second part of the answer is a result-set
    part, the rows of the buffer followed by the rows of the answer are
    returned. *)
Theorem fetchmany_asks_for_the_missing_rows (w : World S) (n id : Z) :
  cursor_open w ->
  _executed (self w) = true ->
  flag_set (_received_last_resultset_part (self w)) = false ->
  _resultset_id (self w) = Some id ->
  Z.of_nat (length (_buffer (self w))) < n ->
  let request := FETCHNEXT id (n - Z.of_nat (length (_buffer (self w)))) in
  exists r w',
    fetchmany env (Some n) w = (r, w')
    /\ sent (conn w') = sent (conn w) ++ [request]
    /\ _buffer (self w') = []
    /\ (forall e s',
          send env (server (conn w)) request = (inl e, s') -> r = Raise e)
    /\ (forall response s' attribute rows,
          send env (server (conn w)) request = (inr response, s') ->
          nth_error (parts response) 1 = Some (RESULTSET attribute rows) ->
          r = Return (_buffer (self w) ++ rows)).
Proof.
  intros Ho He Hf Hid Hlt request.
  rewrite (fetchmany_open env w (Some n) Ho He). cbv zeta.
  unfold taken, effective_size.
  replace (Nat.min (length (_buffer (self w))) (Z.to_nat n))
    with (length (_buffer (self w))) by lia.
  rewrite Hf, Hid, firstn_all, skipn_all.
  replace (n - Z.of_nat (length (_buffer (self w))) =? 0) with false
    by (symmetry; apply Z.eqb_neq; lia).
  cbn [orb]. fold request.
  destruct (send env (server (conn w)) request) as [[e | response] s'] eqn:Hs.
  - eexists _, _. split; [reflexivity |]. repeat split; try reflexivity.
    + intros e0 s0 H0. inversion H0. reflexivity.
    + intros ? ? ? ? H0. discriminate H0.
  - destruct (nth_error (parts response) 1) as [part |] eqn:Hp.
    + destruct part;
        (eexists _, _; split; [reflexivity |];
         rewrite ?note_last_part_conn;
         split; [reflexivity |];
         split; [try reflexivity |];
         [.. | split;
               [intros ? ? H0; discriminate H0
               | intros ? ? ? ? H0 H1; inversion H0; subst;
                 rewrite Hp in H1; inversion H1; subst; reflexivity]]).
      unfold note_last_part. destruct (negb _); reflexivity.
    + eexists _, _. split; [reflexivity |]. repeat split; try reflexivity.
      * intros ? ? H0. discriminate H0.
      * intros ? ? ? ? H0 H1. inversion H0; subst. rewrite Hp in H1.
        discriminate H1.
Qed.


(** X8. Whatever the outcome of [fetchmany], it assigns no attribute of
    the cursor but the buffer and the last-part flag: the row count, the
    description, the array size, the cached statements, the connection
    reference, the executed flag and the result-set identifier are as
    before, and the connection is as open or closed as before.  The buffer
    only loses rows at its front, and a last-part flag that was set stays
    set, with nothing sent. *)
Theorem fetchmany_assigns_buffer_and_flag_only
    (w : World S) (size : option Z) (r : outcome (list Row)) (w' : World S) :
  fetchmany env size w = (r, w') ->
  rowcount (self w') = rowcount (self w)
  /\ description (self w') = description (self w)
  /\ arraysize (self w') = arraysize (self w)
  /\ _prepared_statements (self w') = _prepared_statements (self w)
  /\ connection (self w') = connection (self w)
  /\ _executed (self w') = _executed (self w)
  /\ _resultset_id (self w') = _resultset_id (self w)
  /\ closed (conn w') = closed (conn w)
  /\ (exists front, _buffer (self w) = front ++ _buffer (self w'))
  /\ (flag_set (_received_last_resultset_part (self w)) = true ->
      flag_set (_received_last_resultset_part (self w')) = true
      /\ sent (conn w') = sent (conn w)).
Proof.
  intros H.
  destruct (ready_or_not w) as [[Ho He] | Hn].
  2:{ destruct (fetchmany_not_ready env w size r w' H Hn) as [-> _].
      repeat split; try reflexivity; auto. exists []. reflexivity. }
  rewrite (fetchmany_open env w size Ho He) in H. cbv zeta in H.
  assert (Hbuf : exists front,
             _buffer (self w)
             = front ++ skipn (taken size w) (_buffer (self w)))
    by (exists (firstn (taken size w) (_buffer (self w)));
        symmetry; apply firstn_skipn).
  destruct (flag_set (_received_last_resultset_part (self w))) eqn:Hf.
  { rewrite orb_true_r in H. inversion H; subst.
    repeat split; try reflexivity; try exact Hbuf; exact Hf. }
  rewrite orb_false_r in H.
  assert (Hno : false = true ->
                flag_set (_received_last_resultset_part (self w')) = true
                /\ sent (conn w') = sent (conn w))
    by (intros Hx; discriminate Hx).
  destruct (_ =? 0).
  { inversion H; subst.
    repeat split; try reflexivity; try exact Hbuf; apply Hno; assumption. }
  destruct (_resultset_id (self w)) as [id |] eqn:Hid.
  2:{ inversion H; subst.
      repeat split; try reflexivity; try exact Hbuf; try exact Hid;
        apply Hno; assumption. }
  destruct (send env (server (conn w)) _) as [[e | response] s'].
  { inversion H; subst.
    repeat split; try reflexivity; try exact Hbuf; try exact Hid;
      apply Hno; assumption. }
  destruct (nth_error (parts response) 1) as [[] |];
    inversion H; subst;
    try (repeat split; try reflexivity; try exact Hbuf; try exact Hid;
         apply Hno; assumption).
  clear H. unfold note_last_part in *. destruct (negb _);
    repeat split; try reflexivity; try exact Hbuf; try exact Hid;
      apply Hno; assumption.
Qed.

Lemma fetchall_loop_drains (fuel : nat) :
  forall (w : World S) (result : list Row),
    cursor_open w ->
    _executed (self w) = true ->
    flag_set (_received_last_resultset_part (self w)) = true ->
    1 <= arraysize (self w) ->
    (length (_buffer (self w)) <= fuel)%nat ->
    fetchall_loop env fuel result w
    = (Return (result ++ _buffer (self w)), on_self (set_buffer []) w).
Proof.
  induction fuel as [| fuel IH]; intros w result Ho He Hf Ha Hfuel;
    rewrite fetchall_loop_step; unfold more_to_fetch; rewrite Hf;
    destruct (_buffer (self w)) as [| row buffer] eqn:Hb;
    cbn [orb negb].
  - rewrite app_nil_r, <- Hb, on_self_same. reflexivity.
  - simpl in Hfuel. lia.
  - rewrite app_nil_r, <- Hb, on_self_same. reflexivity.
  - unfold bind at 1.
    rewrite (fetchmany_open env w None Ho He). cbv zeta.
    rewrite Hf, orb_true_r.
    unfold taken, effective_size. rewrite Hb.
    set (k := Nat.min (length (row :: buffer)) (Z.to_nat (arraysize (self w)))).
    assert (Hk : (1 <= k)%nat) by (subst k; simpl length; lia).
    rewrite IH; try assumption.
    + cbn [self on_self _buffer set_buffer]. rewrite <- app_assoc, firstn_skipn.
      reflexivity.
    + cbn [self on_self _buffer set_buffer]. rewrite length_skipn.
      simpl length in *. lia.
Qed.

(** X9. On an open, executed cursor that has received the last part, with
    an array size of at least 1, [fetchall] returns the rows of the buffer
    in order and leaves the buffer empty, once its loop has fuel for one
    round per row; it sends no request. *)
Theorem fetchall_after_the_last_part_returns_the_buffer
    (w : World S) (fuel : nat) :
  cursor_open w ->
  _executed (self w) = true ->
  flag_set (_received_last_resultset_part (self w)) = true ->
  1 <= arraysize (self w) ->
  (length (_buffer (self w)) <= fuel)%nat ->
  fetchall env fuel w
  = (Return (_buffer (self w)), on_self (set_buffer []) w).
Proof.
  intros Ho He Hf Ha Hfuel. unfold fetchall, bind at 1.
  rewrite (fetchmany_open env w None Ho He). cbv zeta.
  rewrite Hf, orb_true_r.
  rewrite fetchall_loop_drains; try assumption.
  - cbn [self on_self _buffer set_buffer]. rewrite firstn_skipn. reflexivity.
  - cbn [self on_self _buffer set_buffer]. rewrite length_skipn. lia.
Qed.

End Buffer.


Lemma fetchmany_asks_for_the_missing_rows_witness :
  let env := environment_of (resultset_server 3 [integer_column]) in
  let w := fetching_World [[PyInt 2]; [PyInt 3]] [[PyInt 1]] 0 1 in
  exists r w',
    fetchmany env (Some 3) w = (r, w')
    /\ sent (conn w') = [FETCHNEXT 1 2]
    /\ _buffer (self w') = []
    /\ r = Return [[PyInt 1]; [PyInt 2]; [PyInt 3]].
Proof.
  intros env w.
  destruct (fetchmany_asks_for_the_missing_rows env w 3 1
              (conj eq_refl eq_refl) eq_refl eq_refl eq_refl)
    as (r & w' & Hrun & Hsent & Hbuf & _ & Hrows).
  - simpl. lia.
  - exists r, w'. split; [exact Hrun |]. split; [exact Hsent |].
    split; [exact Hbuf |].
    apply (Hrows _ _ 1 [[PyInt 2]; [PyInt 3]] eq_refl eq_refl).
Defined.


Lemma fetchmany_assigns_buffer_and_flag_only_witness :
  let env := environment_of (resultset_server 3 [integer_column]) in
  let w := fetching_World [[PyInt 2]; [PyInt 3]] [[PyInt 1]] 0 1 in
  let w' := snd (fetchmany env (Some 3) w) in
  rowcount (self w') = rowcount (self w)
  /\ arraysize (self w') = arraysize (self w)
  /\ exists front, _buffer (self w) = front ++ _buffer (self w').
Proof.
  intros env w w'.
  destruct (fetchmany_assigns_buffer_and_flag_only env w (Some 3)
              (fst (fetchmany env (Some 3) w)) w' eq_refl)
    as (Hr & _ & Ha & _ & _ & _ & _ & _ & Hb & _).
  split; [exact Hr |]. split; [exact Ha | exact Hb].
Defined.

Lemma fetchall_after_the_last_part_returns_the_buffer_witness :
  let env := environment_of scripted in
  let w := fetching_World [] [[PyInt 1]; [PyInt 2]; [PyInt 3]] 1 2 in
  fetchall env 3 w
  = (Return [[PyInt 1]; [PyInt 2]; [PyInt 3]], on_self (set_buffer []) w).
Proof.
  intros env w.
  apply (fetchall_after_the_last_part_returns_the_buffer env w 3
           (conj eq_refl eq_refl) eq_refl eq_refl).
  - simpl. lia.
  - simpl. lia.
Defined.

(** ** The row binder, further *)

Section BinderMore.

Import PreparedStatement.

(** X10. [prepare_parameters] starts a new batch but keeps the lookahead
    stack: a row pushed back before, even after the previous batch had
    ended, is the first row the next [next()] returns, ahead of the rows of
    the new batch, which are still all pending. *)
Theorem prepare_parameters_keeps_pushed_rows
    (ps : PreparedStatement) (r : list ParamTuple) (rows : list pyval) :
  next (snd (prepare_parameters rows (snd (push_back r ps))))
  = (Return r, snd (prepare_parameters rows ps))
  /\ _multi_row_parameters (snd (prepare_parameters rows ps)) = Some rows
  /\ end_of_data (snd (prepare_parameters rows ps)) = false.
Proof.
  split; [| split; reflexivity].
  rewrite (next_pushed _ (_pushed_row_params ps) r); [| reflexivity | reflexivity].
  destruct ps; reflexivity.
Qed.

(** X11. The lookahead is a stack: while the end of the data has not been
    reached, after [push_back(a)] and [push_back(b)] the next two calls of
    [next()] return [b] and then [a], take nothing from the row source and
    leave the statement as it was before the two pushes. *)
Theorem pushed_rows_return_last_in_first_out
    (ps : PreparedStatement) (a b : list ParamTuple) :
  end_of_data ps = false ->
  let ps1 := snd (push_back a ps) in
  let ps2 := snd (push_back b ps1) in
  next ps2 = (Return b, ps1)
  /\ next ps1 = (Return a, ps)
  /\ _multi_row_parameters ps2 = _multi_row_parameters ps.
Proof.
  intros He ps1 ps2. split; [| split; [| reflexivity]].
  - subst ps2. rewrite (next_pushed _ (_pushed_row_params ps1) b);
      [| exact He | reflexivity].
    destruct ps; reflexivity.
  - subst ps1. rewrite (next_pushed _ (_pushed_row_params ps) a);
      [| exact He | reflexivity].
    destruct ps; reflexivity.
Qed.




End BinderMore.

Lemma pushed_rows_return_last_in_first_out_witness :
  let ps := snd (PreparedStatement.prepare_parameters [PyTuple [PyInt 1]]
                   (new_PreparedStatement 7 [one_parameter] None)) in
  let ps1 := snd (PreparedStatement.push_back bound_one ps) in
  let ps2 := snd (PreparedStatement.push_back [] ps1) in
  PreparedStatement.next ps2 = (Return [], ps1)
  /\ PreparedStatement.next ps1 = (Return bound_one, ps).
Proof.
  intros ps ps1 ps2.
  destruct (pushed_rows_return_last_in_first_out ps bound_one [] eq_refl)
    as (H1 & H2 & _).
  split; [exact H1 | exact H2].
Defined.


(** ** Preparing, further *)

Section PrepareMore.

Context {S : Type} (env : Environment S).

(** X13. When [prepare] returns a statement identifier, a new prepared
    statement is cached under it (no pushed rows, no batch, not at its
    end), whatever was cached there before; the statements cached under
    other identifiers are untouched; [get_prepared_statement] on the
    identifier succeeds; exactly the prepare request has been sent; and the
    buffer, the row count, the description and the executed flag are as
    before. *)
Theorem prepare_caches_a_new_statement
    (statement : string) (w : World S) (sid : Z) (w' : World S) :
  prepare env statement w = (Return sid, w') ->
  (exists values result_metadata,
      cached w' sid = Some (new_PreparedStatement sid values result_metadata))
  /\ (forall other, other <> sid -> cached w' other = cached w other)
  /\ get_prepared_statement sid w' = (Return sid, w')
  /\ sent (conn w') = sent (conn w) ++ [PREPARE statement]
  /\ _buffer (self w') = _buffer (self w)
  /\ rowcount (self w') = rowcount (self w)
  /\ description (self w') = description (self w)
  /\ _executed (self w') = _executed (self w).
Proof.
  unfold prepare, bind at 1.
  destruct (_check_closed w) as [[[] | e |] w0] eqn:Hc; try discriminate.
  pose proof (check_returns_open w _ _ Hc) as Ho.
  pose proof (_check_closed_state w _ _ Hc); subst w0.
  unfold bind at 1.
  destruct (send env (server (conn w)) (PREPARE statement)) as [reply s'] eqn:Hs.
  rewrite (send_request_open env w _ reply s' (proj1 Ho) Hs).
  destruct reply as [e | response]; [discriminate |].
  destruct (scan_prepare_parts (parts response) (None, None, None)) as [[a b] c].
  destruct a as [id |]; [| discriminate].
  destruct b as [values |]; [| discriminate].
  unfold bind, modify, ret. intros H. inversion H; subst. clear H.
  split; [exists values, c; apply lookup_insert_eq |].
  split; [intros other Hne; unfold cached; simpl;
          apply lookup_insert_ne; congruence |].
  split; [| repeat split; reflexivity].
  unfold get_prepared_statement, bind, get. simpl.
  rewrite lookup_insert_eq. reflexivity.
Qed.

(** X14. [_handle_result_metadata] accepts a list of columns exactly when
    every type code has a codec: then the description has one entry per
    column, in order, built from the column, and the column types are the
    type codes in order.  Otherwise it raises [InterfaceError] for the first
    column whose type code has no codec, naming that type code. *)
Theorem result_metadata_needs_a_codec_for_every_column (columns : list Column) :
  (Forall (fun column => by_type_code env (column_1 column) = true) columns ->
   _handle_result_metadata env columns
   = inr (map describe columns, map column_1 columns))
  /\ (forall before column after,
        columns = before ++ column :: after ->
        Forall (fun column => by_type_code env (column_1 column) = true) before ->
        by_type_code env (column_1 column) = false ->
        _handle_result_metadata env columns
        = inl (InterfaceError
                 ("Unknown column data type: " +:+ str_Z (column_1 column)))).
Proof.
  split.
  - induction 1 as [| column columns Hc _ IH]; [reflexivity |].
    simpl. rewrite Hc, IH. reflexivity.
  - intros before column after -> Hb Hc.
    induction Hb as [| c before Hk _ IH]; simpl.
    + rewrite Hc. reflexivity.
    + rewrite Hk, IH. reflexivity.
Qed.

Lemma existsb_eqb_In (msg : string) (l : list string) :
  existsb (String.eqb msg) l = true <-> In msg l.
Proof.
  rewrite existsb_exists. split.
  - intros (x & Hin & Heq). apply String.eqb_eq in Heq. subst. exact Hin.
  - intros Hin. exists msg. split; [exact Hin | apply String.eqb_refl].
Qed.

(** X15. [format_operation] leaves the operation as it is when the
    parameters are [None], without substituting anything.  An exception of
    [escape_values] comes out unchanged.  When the values are escaped and
    the substitution raises a [TypeError] with one of the two messages of
    [FORMAT_OPERATION_ERRORS], the result is a [ProgrammingError] with that
    message; and then no [TypeError] with one of these messages ever comes
    out. *)
Theorem format_operation_turns_format_errors_into_usage_errors
    (operation : string) (parameters : pyval) :
  format_operation env operation PyNone = inr operation
  /\ (forall e,
        parameters <> PyNone ->
        escape_values env parameters = inl e ->
        format_operation env operation parameters = inl e)
  /\ (forall e_values msg,
        parameters <> PyNone ->
        escape_values env parameters = inr e_values ->
        str_mod env operation e_values = inl (TypeError msg) ->
        In msg FORMAT_OPERATION_ERRORS ->
        format_operation env operation parameters = inl (ProgrammingError msg))
  /\ (forall e_values msg,
        escape_values env parameters = inr e_values ->
        format_operation env operation parameters = inl (TypeError msg) ->
        ~ In msg FORMAT_OPERATION_ERRORS).
Proof.
  split; [reflexivity |]. split; [| split].
  - intros e Hn He. unfold format_operation. rewrite He.
    destruct parameters; try reflexivity. elim Hn. reflexivity.
  - intros e_values msg Hn He Hm Hin. unfold format_operation. rewrite He, Hm.
    apply existsb_eqb_In in Hin. rewrite Hin.
    destruct parameters; try reflexivity. elim Hn. reflexivity.
  - intros e_values msg He Hf Hin. unfold format_operation in Hf.
    rewrite He in Hf.
    destruct parameters; try discriminate;
      (destruct (str_mod env operation e_values) as [[] |] eqn:Hm;
       try discriminate;
       match type of Hf with
       | context [existsb ?f ?l] => destruct (existsb f l) eqn:Hex
       end; try discriminate;
       inversion Hf; subst;
       apply existsb_eqb_In in Hin; congruence).
Qed.


End PrepareMore.

Lemma prepare_caches_a_new_statement_witness :
  let env := environment_of scripted in
  let w := new_World [inr prepare_reply] in
  let w' := snd (prepare env "INSERT INTO T VALUES (?)" w) in
  (exists values result_metadata,
      cached w' 7 = Some (new_PreparedStatement 7 values result_metadata))
  /\ get_prepared_statement 7 w' = (Return 7, w')
  /\ sent (conn w') = [PREPARE "INSERT INTO T VALUES (?)"].
Proof.
  intros env w w'.
  destruct (prepare_caches_a_new_statement env "INSERT INTO T VALUES (?)" w 7 w'
              eq_refl) as (Hc & _ & Hg & Hs & _).
  split; [exact Hc |]. split; [exact Hg | exact Hs].
Defined.

Lemma result_metadata_needs_a_codec_for_every_column_witness :
  _handle_result_metadata picky_environment [integer_column]
  = inr ([describe integer_column], [3])
  /\ _handle_result_metadata picky_environment
       [integer_column; blob_column; integer_column]
     = inl (InterfaceError "Unknown column data type: 99").
Proof.
  split.
  - apply (result_metadata_needs_a_codec_for_every_column picky_environment
             [integer_column]).
    repeat constructor.
  - apply (proj2 (result_metadata_needs_a_codec_for_every_column
                    picky_environment
                    [integer_column; blob_column; integer_column])
             [integer_column] blob_column [integer_column] eq_refl).
    + repeat constructor.
    + reflexivity.
Defined.

Lemma format_operation_turns_format_errors_into_usage_errors_witness :
  let env := environment_of scripted in
  format_operation env "INSERT INTO T VALUES (%s, %s)" (PyTuple [PyInt 1])
  = inl (ProgrammingError "not enough arguments for format string")
  /\ format_operation env "INSERT INTO T VALUES (%s)" (PyInt 1)
     = inl (InterfaceError "escape_values expects list, tuple or dict").
Proof.
  intros env. split.
  - apply (proj1 (proj2 (proj2
             (format_operation_turns_format_errors_into_usage_errors env
                "INSERT INTO T VALUES (%s, %s)" (PyTuple [PyInt 1]))))
             (PyTuple [PyStr "1"])).
    + discriminate.
    + reflexivity.
    + reflexivity.
    + left. reflexivity.
  - apply (proj1 (proj2
             (format_operation_turns_format_errors_into_usage_errors env
                "INSERT INTO T VALUES (%s)" (PyInt 1)))).
    + discriminate.
    + reflexivity.
Defined.


(** ** Prepared execution *)

Section Prepared.

Context {S : Type} (env : Environment S).

Lemma preserves_try_except {St A X} (f : St -> X) (m : M St A) (h : exn -> M St A) :
  preserves f m -> (forall e, preserves f (h e)) -> preserves f (try_except m h).
Proof.
  intros Hm Hh s r s' H. unfold try_except in H.
  destruct (m s) as [[a | e |] s1] eqn:E.
  - inversion H; subst. eapply Hm; eassumption.
  - rewrite (Hh e _ _ _ H). eapply Hm; eassumption.
  - inversion H; subst. eapply Hm; eassumption.
Qed.

Lemma next_statement_id : preserves statement_id PreparedStatement.next.
Proof.
  unfold PreparedStatement.next. apply preserves_bind; [frame |].
  intros self. destruct (end_of_data self); [frame |].
  destruct (list_pop _) as [[row rest] |]; [frame |].
  apply preserves_bind.
  - apply preserves_try_except.
    + unfold PreparedStatement.iterator_next. frame.
    + intros e. destruct e; frame.
  - intros parameters. frame.
Qed.

Lemma pack_parameters_statement_id (fuel : nat) :
  forall packed, preserves statement_id (pack_parameters env fuel packed).
Proof.
  induction fuel as [| fuel IH]; intros packed ps r ps' H; simpl in H.
  - inversion H. reflexivity.
  - destruct (PreparedStatement.next ps) as [[row | e |] ps1] eqn:Hn;
      pose proof (next_statement_id _ _ _ Hn) as Hid.
    + destruct (fits env packed row).
      * rewrite (IH _ _ _ _ H). exact Hid.
      * inversion H; subst. exact Hid.
    + destruct e; inversion H; subst; exact Hid.
    + inversion H; subst. exact Hid.
Qed.

Lemma _handle_prepared_select_frame parts result_metadata :
  preserves (fun w : World S => (_prepared_statements (self w), conn w))
            (_handle_prepared_select env parts result_metadata).
Proof. unfold _handle_prepared_select, store_resultset. frame. Qed.

Lemma _handle_prepared_insert_frame parts :
  preserves (fun w : World S => (_prepared_statements (self w), conn w))
            (_handle_prepared_insert env parts).
Proof. unfold _handle_prepared_insert. frame. Qed.

(** What follows the answer in the loop of [execute_prepared] keeps the
    cached statements and uses the connection no more. *)
Lemma prepared_dispatch_frame (sid : Z) (response : Segment) (w : World S)
    (ps : PreparedStatement) r w' :
  cached w sid = Some ps ->
  (if match function_code response with SELECT => true | _ => false end then
     result_metadata <- on_statement sid (gets result_metadata_part) ;;
     _handle_prepared_select env (parts response) result_metadata
   else if in_DML (function_code response) then
     _handle_prepared_insert env (parts response)
   else if match function_code response with DDL => true | _ => false end then
     ret tt
   else raise (InterfaceError "Invalid or unsupported function code received")) w
  = (r, w') ->
  cached w' sid = Some ps /\ conn w' = conn w.
Proof.
  intros Hc H.
  destruct (match function_code response with SELECT => true | _ => false end).
  - unfold bind at 1 in H. rewrite (on_statement_run w sid ps _ Hc) in H.
    unfold gets in H. cbn [fst snd] in H.
    pose proof (_handle_prepared_select_frame _ _ _ _ _ H) as Hf.
    inversion Hf as [[Hps Hconn]]. unfold cached. rewrite Hps, Hconn.
    split; [apply cached_after | reflexivity].
  - destruct (in_DML (function_code response)).
    + pose proof (_handle_prepared_insert_frame _ _ _ _ H) as Hf.
      inversion Hf as [[Hps Hconn]]. unfold cached. rewrite Hps, Hconn.
      split; [exact Hc | reflexivity].
    + destruct (match function_code response with DDL => true | _ => false end);
        (inversion H; subst; split; [exact Hc | reflexivity]).
Qed.

Lemma execute_prepared_step_requests (sid : Z) (w : World S) r w' :
  holds_statement sid w ->
  execute_prepared_step env sid w = (r, w') ->
  holds_statement sid w'
  /\ (sent (conn w') = sent (conn w)
      \/ exists rows, sent (conn w') = sent (conn w) ++ [EXECUTE sid rows]).
Proof.
  intros (ps & Hc & Hid) H.
  unfold execute_prepared_step, bind at 1, send_execute, bind at 1 in H.
  rewrite (on_statement_run w sid ps _ Hc) in H.
  unfold gets at 1 in H. cbn [fst snd] in H.
  unfold bind at 1 in H.
  rewrite (on_statement_run _ sid ps _ (cached_after w sid ps)) in H.
  unfold gets at 1 in H. cbn [fst snd] in H.
  unfold bind at 1 in H.
  rewrite (on_statement_run _ sid ps _ (cached_after _ sid ps)) in H.
  destruct (pack_parameters env (2 + pending_rows ps) [] ps)
    as [[rows | e |] ps'] eqn:Hp;
    pose proof (pack_parameters_statement_id _ _ _ _ _ Hp) as Hid';
    cbn [fst snd] in H.
  - match type of H with
    | context [send_request env ?req ?world] =>
        set (w0 := world) in *;
        assert (Hc0 : cached w0 sid = Some ps') by apply cached_after;
        assert (Hconn0 : conn w0 = conn w) by reflexivity;
        clearbody w0
    end.
    destruct (connection (self w0)) as [[] |] eqn:Hcn.
    + destruct (send env (server (conn w0)) (EXECUTE (statement_id ps) rows))
        as [reply s'] eqn:Hs.
      rewrite (send_request_open env w0 _ reply s' Hcn Hs) in H.
      destruct reply as [e | response].
      * inversion H; subst r w'. split.
        -- exists ps'. split; [exact Hc0 | congruence].
        -- right. exists rows. cbn [after_request conn sent].
           rewrite Hconn0, Hid. reflexivity.
      * assert (Hc1 : cached (after_request (EXECUTE (statement_id ps) rows) s' w0)
                        sid = Some ps') by exact Hc0.
        destruct (prepared_dispatch_frame sid response _ ps' r w' Hc1 H)
          as [Hc' Hconn'].
        split.
        -- exists ps'. split; [exact Hc' | congruence].
        -- right. exists rows. rewrite Hconn'. cbn [after_request conn sent].
           rewrite Hconn0, Hid. reflexivity.
    + unfold send_request, bind, get in H. rewrite Hcn in H.
      inversion H; subst r w'. split.
      * exists ps'. split; [exact Hc0 | congruence].
      * left. rewrite Hconn0. reflexivity.
  - inversion H; subst r w'. split.
    + exists ps'. split; [apply cached_after | congruence].
    + left. reflexivity.
  - inversion H; subst r w'. split.
    + exists ps'. split; [apply cached_after | congruence].
    + left. reflexivity.
Qed.

Lemma execute_prepared_loop_step (fuel : nat) (sid : Z) (w : World S) :
  execute_prepared_loop env fuel sid w
  = (more <- on_statement sid PreparedStatement.nonzero ;;
     if (more : bool) then
       match fuel with
       | O => out_of_fuel
       | Datatypes.S fuel' =>
           execute_prepared_step env sid ;; execute_prepared_loop env fuel' sid
       end
     else ret tt) w.
Proof. destruct fuel; reflexivity. Qed.

Lemma execute_prepared_loop_requests (fuel : nat) (sid : Z) :
  forall (w : World S) r w',
    holds_statement sid w ->
    execute_prepared_loop env fuel sid w = (r, w') ->
    exists requests,
      sent (conn w') = sent (conn w) ++ requests
      /\ Forall (is_EXECUTE_of sid) requests.
Proof.
  induction fuel as [| fuel IH]; intros w r w' Hh H;
    rewrite execute_prepared_loop_step in H;
    destruct Hh as (ps & Hc & Hid);
    unfold bind at 1 in H;
    rewrite (on_statement_run w sid ps _ Hc) in H;
    unfold PreparedStatement.nonzero, gets in H; cbn [fst snd] in H;
    destruct (negb (end_of_data ps));
    try (inversion H; subst r w'; exists []; rewrite app_nil_r;
         split; [reflexivity | constructor]).
  unfold bind at 1 in H.
  destruct (execute_prepared_step env sid _) as [[[] | e |] w1] eqn:Hstep;
    (apply execute_prepared_step_requests in Hstep;
     [| exists ps; split; [apply cached_after | exact Hid]]);
    destruct Hstep as [Hh1 Hsent].
  - destruct (IH w1 r w' Hh1 H) as (requests & Hs & Hall).
    destruct Hsent as [Hsame | [rows Hone]].
    + exists requests. rewrite Hs, Hsame. split; [reflexivity | exact Hall].
    + exists (EXECUTE sid rows :: requests). rewrite Hs, Hone, <- app_assoc.
      split; [reflexivity |]. constructor; [exists rows; reflexivity | exact Hall].
  - inversion H; subst r w'. destruct Hsent as [Hsame | [rows Hone]].
    + exists []. rewrite app_nil_r. split; [exact Hsame | constructor].
    + exists [EXECUTE sid rows]. split; [exact Hone |].
      constructor; [exists rows; reflexivity | constructor].
  - inversion H; subst r w'. destruct Hsent as [Hsame | [rows Hone]].
    + exists []. rewrite app_nil_r. split; [exact Hsame | constructor].
    + exists [EXECUTE sid rows]. split; [exact Hone |].
      constructor; [exists rows; reflexivity | constructor].
Qed.

(** What [prepare] leaves behind when it returns. *)
Lemma prepare_returns (statement : string) (w : World S) (sid : Z) (w' : World S) :
  prepare env statement w = (Return sid, w') ->
  cursor_open w
  /\ exists values result_metadata s',
       w' = cache_statement sid
              (new_PreparedStatement sid values result_metadata)
              (after_request (PREPARE statement) s' w).
Proof.
  unfold prepare, bind at 1.
  destruct (_check_closed w) as [[[] | e |] w0] eqn:Hc; try discriminate.
  pose proof (check_returns_open w _ _ Hc) as Ho.
  pose proof (_check_closed_state w _ _ Hc); subst w0.
  unfold bind at 1.
  destruct (send env (server (conn w)) (PREPARE statement)) as [reply s'] eqn:Hs.
  rewrite (send_request_open env w _ reply s' (proj1 Ho) Hs).
  destruct reply as [e | response]; [discriminate |].
  destruct (scan_prepare_parts (parts response) (None, None, None)) as [[a b] c].
  destruct a as [id |]; [| discriminate].
  destruct b as [values |]; [| discriminate].
  unfold bind, modify, ret. intros H. inversion H; subst.
  split; [exact Ho |]. exists values, c, s'. reflexivity.
Qed.

(** X17. When [prepare] succeeds, [executemany] does not fall back to
    direct execution: after the prepare request, every request it sends is
    a prepared-execute request for the statement identifier that [prepare]
    returned, whatever the rows are and whether the call returns, raises or
    runs out of fuel. *)
Theorem executemany_after_prepare_sends_only_executes
    (fuel : nat) (statement : string) (rows : list pyval)
    (w : World S) (sid : Z) (w1 : World S) :
  prepare env statement w = (Return sid, w1) ->
  exists r w2 requests,
    executemany env fuel statement rows w = (r, w2)
    /\ sent (conn w2) = sent (conn w) ++ PREPARE statement :: requests
    /\ Forall (is_EXECUTE_of sid) requests.
Proof.
  intros Hp. unfold executemany. rewrite Hp.
  destruct (prepare_returns statement w sid w1 Hp)
    as (Ho & values & result_metadata & s' & ->).
  set (ps := new_PreparedStatement sid values result_metadata).
  set (w1 := cache_statement sid ps (after_request (PREPARE statement) s' w)).
  assert (Hc : cached w1 sid = Some ps) by apply cached_after.
  unfold bind at 1, get_prepared_statement, bind at 1, get.
  fold (cached w1 sid). rewrite Hc. unfold ret at 1.
  unfold execute_prepared, bind at 1.
  rewrite (open_check w1 Ho). unfold bind at 1.
  rewrite (on_statement_run w1 sid ps _ Hc). cbn [fst snd].
  match goal with
  | |- context [execute_prepared_loop env fuel sid ?w0] =>
      destruct (execute_prepared_loop env fuel sid w0) as [r w2] eqn:Hloop
  end.
  apply execute_prepared_loop_requests in Hloop.
  - destruct Hloop as (requests & Hs & Hall).
    exists r, w2, requests. split; [reflexivity |]. split; [| exact Hall].
    rewrite Hs. simpl. rewrite <- app_assoc. reflexivity.
  - eexists. split; [apply cached_after | reflexivity].
Qed.

End Prepared.

Lemma executemany_after_prepare_sends_only_executes_witness :
  let env := environment_of scripted in
  let statement := "INSERT INTO T VALUES (?)" in
  let rows := [PyTuple [PyInt 1]; PyTuple [PyInt 2]; PyTuple [PyInt 3]] in
  let w := new_World [inr prepare_reply; inr insert_reply; inr insert_reply] in
  (exists r w2 requests,
     executemany env 3 statement rows w = (r, w2)
     /\ sent (conn w2) = sent (conn w) ++ PREPARE statement :: requests
     /\ Forall (is_EXECUTE_of 7) requests)
  /\ fst (executemany env 3 statement rows w) = Return tt
  /\ length (sent (conn (snd (executemany env 3 statement rows w)))) = 3%nat.
Proof.
  intros env statement rows w. split; [| split].
  - apply (executemany_after_prepare_sends_only_executes env 3 statement rows w 7
             (snd (prepare env statement w)) eq_refl).
  - vm_compute. reflexivity.
  - vm_compute. reflexivity.
Defined.

Section PreparedMore.

Context {S : Type} (env : Environment S).

(** X18. [_handle_prepared_select] first resets the row count to -1.
    Without result metadata from the prepare (a statement prepared as
    something else than a select) it then raises [AttributeError], with the
    row count already reset and nothing else changed.  With metadata whose
    type codes all have codecs and the parts result-set identifier, result
    set and statement context, it returns and the cursor holds the result:
    buffer, description, identifier, last-part flag and executed flag as
    after a direct select. *)
Theorem prepared_select_resets_the_row_count_first
    (w : World S) (parts : list Part) (columns : list Column)
    (id attribute : Z) (rows : list Row) :
  _handle_prepared_select env parts None w
  = (Raise AttributeError, on_self (set_rowcount (-1)) w)
  /\ (Forall (fun column => by_type_code env (column_1 column) = true) columns ->
      exists w',
        _handle_prepared_select env
          [RESULTSETID id; RESULTSET attribute rows; STATEMENTCONTEXT]
          (Some columns) w
        = (Return tt, w')
        /\ rowcount (self w') = -1
        /\ _buffer (self w') = rows
        /\ description (self w') = Some (map describe columns)
        /\ _resultset_id (self w') = Some id
        /\ _received_last_resultset_part (self w') = Z.land attribute 1
        /\ _executed (self w') = true
        /\ conn w' = conn w).
Proof.
  split; [reflexivity |].
  intros Hk.
  assert (Hmeta : _handle_result_metadata env columns
                  = inr (map describe columns, map column_1 columns)).
  { induction Hk as [| column columns Hc _ IH]; [reflexivity |].
    simpl. rewrite Hc, IH. reflexivity. }
  unfold _handle_prepared_select, bind at 1. unfold modify at 1.
  unfold bind at 1. unfold ret at 1. unfold bind at 1. rewrite Hmeta.
  eexists. split; [reflexivity |]. repeat split; reflexivity.
Qed.

Lemma pack_parameters_of_nothing (ps : PreparedStatement) (fuel : nat) :
  end_of_data ps = false ->
  _pushed_row_params ps = [] ->
  _multi_row_parameters ps = Some [] ->
  pack_parameters env (Datatypes.S fuel) [] ps
  = (Return [], set_end_of_data true ps).
Proof.
  intros He Hs Hm. simpl. rewrite (next_exhausted ps He Hs Hm). reflexivity.
Qed.

(** X19. [execute_prepared] with an empty batch still enters its loop
    once: on an open cursor, for a cached statement without pushed rows and
    with fuel for one round, it sends exactly one prepared-execute request,
    for that statement and with no rows, and none after it, whatever the
    server answers. *)
Theorem execute_prepared_with_no_rows_sends_one_request
    (fuel : nat) (sid : Z) (w : World S) (ps : PreparedStatement) :
  cursor_open w ->
  cached w sid = Some ps ->
  _pushed_row_params ps = [] ->
  exists r w',
    execute_prepared env (Datatypes.S fuel) sid [] w = (r, w')
    /\ sent (conn w') = sent (conn w) ++ [EXECUTE (statement_id ps) []].
Proof.
  intros Ho Hc Hs.
  set (ps0 := snd (PreparedStatement.prepare_parameters [] ps)).
  set (ps1 := set_end_of_data true ps0).
  unfold execute_prepared, bind at 1. rewrite (open_check w Ho).
  unfold bind at 1. rewrite (on_statement_run w sid ps _ Hc).
  fold ps0. cbn [fst].
  rewrite execute_prepared_loop_step. unfold bind at 1.
  rewrite (on_statement_run _ sid ps0 _ (cached_after w sid ps0)).
  cbn [fst snd PreparedStatement.nonzero gets].
  change (negb (end_of_data ps0)) with true. cbv iota.
  unfold bind at 1.
  unfold execute_prepared_step, bind at 1, send_execute, bind at 1.
  rewrite (on_statement_run _ sid ps0 _ (cached_after _ sid ps0)).
  unfold gets at 1. cbn [fst snd]. unfold bind at 1.
  rewrite (on_statement_run _ sid ps0 _ (cached_after _ sid ps0)).
  unfold gets at 1. cbn [fst snd]. unfold bind at 1.
  rewrite (on_statement_run _ sid ps0 _ (cached_after _ sid ps0)).
  change (2 + pending_rows ps0)%nat
    with (Datatypes.S (Datatypes.S (pending_rows ps0))).
  rewrite (pack_parameters_of_nothing ps0 _ eq_refl Hs eq_refl).
  fold ps1. cbn [fst snd].
  match goal with
  | |- context [send_request env ?req ?world] =>
      set (w0 := world);
      assert (Hc0 : cached w0 sid = Some ps1) by apply cached_after;
      assert (Hconn0 : conn w0 = conn w) by reflexivity;
      assert (Hcn : connection (self w0) = Some TheConnection) by apply Ho;
      clearbody w0
  end.
  change (statement_id ps0) with (statement_id ps).
  destruct (send env (server (conn w0)) (EXECUTE (statement_id ps) []))
    as [reply s'] eqn:Hsend.
  rewrite (send_request_open env w0 _ reply s' Hcn Hsend).
  destruct reply as [e | response].
  - eexists _, _. split; [reflexivity |].
    cbn [after_request conn sent]. rewrite Hconn0. reflexivity.
  - match goal with
    | |- context [?dispatch (after_request ?req s' w0)] =>
        destruct (dispatch (after_request req s' w0)) as [r1 w3] eqn:Hd
    end.
    assert (Hc1 : cached (after_request (EXECUTE (statement_id ps) []) s' w0) sid
                  = Some ps1) by exact Hc0.
    destruct (prepared_dispatch_frame env sid response _ ps1 r1 w3 Hc1 Hd)
      as [Hc3 Hconn3].
    assert (Hsent : sent (conn w3)
                    = sent (conn w) ++ [EXECUTE (statement_id ps) []])
      by (rewrite Hconn3; cbn [after_request conn sent]; rewrite Hconn0;
          reflexivity).
    destruct r1 as [[] | e |].
    + rewrite execute_prepared_loop_step. unfold bind at 1.
      rewrite (on_statement_run w3 sid ps1 _ Hc3).
      eexists _, _. split; [reflexivity |]. exact Hsent.
    + eexists _, _. split; [reflexivity |]. exact Hsent.
    + eexists _, _. split; [reflexivity |]. exact Hsent.
Qed.

End PreparedMore.

Lemma prepared_select_resets_the_row_count_first_witness :
  let env := environment_of scripted in
  let w := new_World ([] : list (exn + Segment)) in
  exists w',
    _handle_prepared_select env
      [RESULTSETID 1; RESULTSET 1 [[PyInt 1]]; STATEMENTCONTEXT]
      (Some [integer_column]) w
    = (Return tt, w')
    /\ _buffer (self w') = [[PyInt 1]]
    /\ _executed (self w') = true.
Proof.
  intros env w.
  destruct (proj2 (prepared_select_resets_the_row_count_first env w []
                     [integer_column] 1 1 [[PyInt 1]]))
    as (w' & Hrun & _ & Hb & _ & _ & _ & He & _).
  - repeat constructor.
  - exists w'. split; [exact Hrun |]. split; [exact Hb | exact He].
Defined.

Lemma execute_prepared_with_no_rows_sends_one_request_witness :
  let env := environment_of scripted in
  let w := binding_World [inr insert_reply] [] in
  exists r w',
    execute_prepared env 1 7 [] w = (r, w')
    /\ sent (conn w') = [EXECUTE 7 []].
Proof.
  intros env w.
  apply (execute_prepared_with_no_rows_sends_one_request env 0 7 w
           (snd (PreparedStatement.prepare_parameters []
                   (new_PreparedStatement 7 [one_parameter] None)))
           (conj eq_refl eq_refl) eq_refl eq_refl).
Defined.

(** * The fallback and the malformed row, in full *)

Section FallbackExact.

Context {S : Type} (env : Environment S).

Lemma _handle_select_connection parts :
  preserves (fun w : World S => (conn w, connection (self w)))
            (_handle_select env parts).
Proof. unfold _handle_select, store_resultset. frame. Qed.

Lemma _handle_insert_connection parts :
  preserves (fun w : World S => (conn w, connection (self w)))
            (_handle_insert parts).
Proof. unfold _handle_insert. frame. Qed.

(** On a cursor with a connection a direct execution always sends its
    request, and the cursor keeps its connection. *)
Lemma _execute_direct_sends (operation : string) (w : World S) r w' :
  connection (self w) = Some TheConnection ->
  _execute_direct env operation w = (r, w') ->
  sent (conn w') = sent (conn w) ++ [EXECUTEDIRECT operation]
  /\ connection (self w') = Some TheConnection.
Proof.
  intros Hc H.
  destruct (send env (server (conn w)) (EXECUTEDIRECT operation))
    as [reply s'] eqn:Hs.
  rewrite (_execute_direct_open env operation w reply s' Hc Hs) in H.
  destruct reply as [e | response].
  - inversion H; subst. split; [reflexivity | exact Hc].
  - assert (Hf : (conn w', connection (self w'))
                 = (conn (after_request (EXECUTEDIRECT operation) s' w),
                    connection (self (after_request (EXECUTEDIRECT operation) s' w)))).
    { destruct (function_code response); simpl in H;
        try (eapply _handle_select_connection; eassumption);
        try (eapply _handle_insert_connection; eassumption);
        inversion H; reflexivity. }
    pose proof (f_equal fst Hf) as Hconn. pose proof (f_equal snd Hf) as Hcn.
    cbn [fst snd] in Hconn, Hcn. rewrite Hconn, Hcn.
    split; [reflexivity | exact Hc].
Qed.

(** A prepare that raises an exception with the signature in its message
    has sent its request: the cursor was open and still has its
    connection. *)
Lemma prepare_raises_with_signature (statement : string) (w : World S) e w1 :
  prepare env statement w = (Raise e, w1) ->
  str_in PERCENT_SYNTAX_ERROR (str_exn e) = true ->
  connection (self w1) = Some TheConnection.
Proof.
  intros Hp Hsig.
  destruct (ready_or_not w) as [[Ho _] | Hn];
    [| destruct (connection (self w)) as [[] |] eqn:Hcn;
       [destruct (closed (conn w)) eqn:Hcl |]].
  - revert Hp. unfold prepare, bind at 1. rewrite (open_check w Ho).
    unfold bind at 1.
    destruct (send env (server (conn w)) (PREPARE statement)) as [reply s'] eqn:Hs.
    rewrite (send_request_open env w _ reply s' (proj1 Ho) Hs).
    destruct reply as [e0 | response].
    + intros H. inversion H; subst. apply Ho.
    + destruct (scan_prepare_parts (parts response) (None, None, None))
        as [[[a |] [b |]] c]; intros H; inversion H; subst;
        vm_compute in Hsig; discriminate Hsig.
  - rewrite (closed_prepare env w statement (or_intror Hcl)) in Hp.
    inversion Hp; subst. vm_compute in Hsig. discriminate Hsig.
  - destruct (_executed (self w)) eqn:He.
    + elim Hn. split; [split; assumption | reflexivity].
    + revert Hp. unfold prepare, bind at 1.
      rewrite (open_check w (conj Hcn Hcl)). unfold bind at 1.
      destruct (send env (server (conn w)) (PREPARE statement)) as [reply s'] eqn:Hs.
      rewrite (send_request_open env w _ reply s' Hcn Hs).
      destruct reply as [e0 | response].
      * intros H. inversion H; subst. exact Hcn.
      * destruct (scan_prepare_parts (parts response) (None, None, None))
          as [[[a |] [b |]] c]; intros H; inversion H; subst;
          vm_compute in Hsig; discriminate Hsig.
  - rewrite (closed_prepare env w statement (or_introl Hcn)) in Hp.
    inversion Hp; subst. vm_compute in Hsig. discriminate Hsig.
Qed.

(** The loop of the fallback on a cursor with a connection, exactly: one
    direct execution per row, in order, each of the statement with the row
    substituted, and three ways to end. *)
Lemma fallback_loop_exact (statement : string) (rows : list pyval) :
  forall w : World S,
    connection (self w) = Some TheConnection ->
    exists ops r w',
      for_each rows (fun row_params =>
        operation <- lift (format_operation env statement row_params) ;;
        _execute_direct env operation) w = (r, w')
      /\ sent (conn w') = sent (conn w) ++ map EXECUTEDIRECT ops
      /\ Forall2 (fun row op => format_operation env statement row = inr op)
                 (firstn (length ops) rows) ops
      /\ ((r = Return tt /\ length ops = length rows)
          \/ (exists row e,
                nth_error rows (length ops) = Some row
                /\ format_operation env statement row = inl e
                /\ r = Raise e)
          \/ (r <> Return tt
              /\ exists done op wb,
                   ops = done ++ [op]
                   /\ sent (conn wb) = sent (conn w) ++ map EXECUTEDIRECT done
                   /\ _execute_direct env op wb = (r, w'))).
Proof.
  induction rows as [| row rows IH]; intros w Hc.
  - exists [], (Return tt), w. simpl. rewrite app_nil_r.
    split; [reflexivity |]. split; [reflexivity |]. split; [constructor |].
    left. split; reflexivity.
  - simpl. unfold bind at 1. unfold bind at 1.
    destruct (format_operation env statement row) as [e | op] eqn:Hfmt; simpl.
    + exists [], (Raise e), w. simpl. rewrite app_nil_r.
      split; [reflexivity |]. split; [reflexivity |]. split; [constructor |].
      right. left. exists row, e. repeat split; assumption.
    + destruct (_execute_direct env op w) as [r1 w1] eqn:Hd.
      destruct (_execute_direct_sends op w r1 w1 Hc Hd) as [Hs Hc1].
      assert (Hstop : r1 <> Return tt ->
                exists ops r w',
                  (r1, w1) = (r, w')
                  /\ sent (conn w') = sent (conn w) ++ map EXECUTEDIRECT ops
                  /\ Forall2 (fun row op => format_operation env statement row = inr op)
                             (firstn (length ops) (row :: rows)) ops
                  /\ ((r = Return tt /\ length ops = length (row :: rows))
                      \/ (exists row0 e,
                            nth_error (row :: rows) (length ops) = Some row0
                            /\ format_operation env statement row0 = inl e
                            /\ r = Raise e)
                      \/ (r <> Return tt
                          /\ exists done op0 wb,
                               ops = done ++ [op0]
                               /\ sent (conn wb) = sent (conn w) ++ map EXECUTEDIRECT done
                               /\ _execute_direct env op0 wb = (r, w')))).
      { intros Hne. exists [op], r1, w1. split; [reflexivity |].
        split; [exact Hs |].
        split; [simpl; repeat constructor; assumption |].
        right. right. split; [exact Hne |].
        exists [], op, w. simpl. rewrite app_nil_r.
        repeat split; try reflexivity. exact Hd. }
      destruct r1 as [[] | e |];
        [| destruct Hstop as (ops & r & w' & Heq & Hrest);
           [discriminate | rewrite Heq; exists ops, r, w'; split;
                           [reflexivity | exact Hrest]] ..].
      clear Hstop.
      destruct (IH w1 Hc1) as (ops & r & w' & Hrun & Hsent & Hall & Hend).
      exists (op :: ops), r, w'. split; [exact Hrun |].
      split; [rewrite Hsent, Hs, <- app_assoc; reflexivity |].
      split; [simpl; constructor; assumption |].
      destruct Hend as [[Hr Hlen] | [(row0 & e & Hnth & Hf & Hr) | (Hne & done & op0 & wb & Hops & Hwb & Hrun0)]].
      * left. split; [exact Hr | simpl; rewrite Hlen; reflexivity].
      * right. left. exists row0, e. repeat split; assumption.
      * right. right. split; [exact Hne |].
        exists (op :: done), op0, wb.
        split; [rewrite Hops; reflexivity |].
        split; [rewrite Hwb, Hs, <- app_assoc; reflexivity | exact Hrun0].
Qed.

(** C1. Let [prepare] raise the exception [e].  If [e] is a
    [DatabaseError] whose message contains the percent-sign signature,
    [executemany] substitutes the rows into the statement with
    [format_operation] and sends one direct-execute request per row, in
    the order of the rows and with the substituted text, and no other
    request.  It ends in one of three ways: it returns, and then there is a
    request for every row; or the substitution of the next row raises, and
    that exception comes out without a request for that row; or the direct
    execution of the last request does not return, and its exception comes
    out.  If the message of [e] lacks the signature, [executemany] raises
    [e] itself and leaves everything as [prepare] left it: nothing is
    substituted and nothing sent. *)
Theorem executemany_falls_back_on_percent_conflict
    (fuel : nat) (statement : string) (rows : list pyval)
    (w : World S) (e : exn) (w1 : World S) :
  prepare env statement w = (Raise e, w1) ->
  (isinstance_DatabaseError env e = true ->
   str_in PERCENT_SYNTAX_ERROR (str_exn e) = true ->
   exists ops r w2,
     executemany env fuel statement rows w = (r, w2)
     /\ sent (conn w2) = sent (conn w1) ++ map EXECUTEDIRECT ops
     /\ Forall2 (fun row op => format_operation env statement row = inr op)
                (firstn (length ops) rows) ops
     /\ ((r = Return tt /\ length ops = length rows)
         \/ (exists row e',
               nth_error rows (length ops) = Some row
               /\ format_operation env statement row = inl e'
               /\ r = Raise e')
         \/ (r <> Return tt
             /\ exists done op wb,
                  ops = done ++ [op]
                  /\ sent (conn wb) = sent (conn w1) ++ map EXECUTEDIRECT done
                  /\ _execute_direct env op wb = (r, w2))))
  /\ (str_in PERCENT_SYNTAX_ERROR (str_exn e) = false ->
      executemany env fuel statement rows w = (Raise e, w1)).
Proof.
  intros Hp. split.
  - intros Hdb Hsig.
    pose proof (prepare_raises_with_signature statement w e w1 Hp Hsig) as Hc.
    destruct (fallback_loop_exact statement rows w1 Hc)
      as (ops & r & w2 & Hrun & Hrest).
    exists ops, r, w2. split; [| exact Hrest].
    unfold executemany. rewrite Hp, Hdb.
    unfold executemany_fallback. rewrite Hsig. exact Hrun.
  - intros Hsig. unfold executemany. rewrite Hp.
    destruct (isinstance_DatabaseError env e); [| reflexivity].
    unfold executemany_fallback. rewrite Hsig. reflexivity.
Qed.

End FallbackExact.

(** C1 on a server that rejects the prepare request with the percent-sign
    syntax error and then accepts the inserts: two rows are substituted and
    executed directly; of three rows whose second has too few values, the
    first is executed and the usage error of the second comes out; with
    another error message the error comes back and only the prepare
    request has been sent. *)
Lemma executemany_falls_back_on_percent_conflict_witness :
  let env := environment_of scripted in
  let statement := "INSERT INTO T VALUES (%s)" in
  let rows := [PyTuple [PyInt 1]; PyTuple [PyInt 2]] in
  let short := [PyTuple [PyInt 1]; PyTuple []; PyTuple [PyInt 3]] in
  let w := new_World [inl percent_conflict; inr insert_reply; inr insert_reply] in
  let v := new_World [inl (DatabaseError "invalid table name: T")] in
  (exists ops r w2,
     executemany env 2 statement rows w = (r, w2)
     /\ sent (conn w2) = [PREPARE statement] ++ map EXECUTEDIRECT ops
     /\ Forall2 (fun row op => format_operation env statement row = inr op)
                (firstn (length ops) rows) ops
     /\ ((r = Return tt /\ length ops = length rows)
         \/ (exists row e',
               nth_error rows (length ops) = Some row
               /\ format_operation env statement row = inl e'
               /\ r = Raise e')
         \/ (r <> Return tt
             /\ exists done op wb,
                  ops = done ++ [op]
                  /\ sent (conn wb) = [PREPARE statement] ++ map EXECUTEDIRECT done
                  /\ _execute_direct env op wb = (r, w2))))
  /\ fst (executemany env 2 statement rows w) = Return tt
  /\ sent (conn (snd (executemany env 2 statement rows w)))
     = [PREPARE statement;
        EXECUTEDIRECT "INSERT INTO T VALUES (1)";
        EXECUTEDIRECT "INSERT INTO T VALUES (2)"]
  /\ fst (executemany env 2 statement short w)
     = Raise (ProgrammingError "not enough arguments for format string")
  /\ sent (conn (snd (executemany env 2 statement short w)))
     = [PREPARE statement; EXECUTEDIRECT "INSERT INTO T VALUES (1)"]
  /\ executemany env 2 statement rows v
     = (Raise (DatabaseError "invalid table name: T"),
        after_request (PREPARE statement) [] v).
Proof.
  intros env statement rows short w v.
  split; [| split; [| split; [| split; [| split]]]].
  - apply (executemany_falls_back_on_percent_conflict env 2 statement rows w
             percent_conflict
             (after_request (PREPARE statement)
                [inr insert_reply; inr insert_reply] w) eq_refl);
      reflexivity.
  - vm_compute. reflexivity.
  - vm_compute. reflexivity.
  - vm_compute. reflexivity.
  - vm_compute. reflexivity.
  - apply (executemany_falls_back_on_percent_conflict env 2 statement rows v
             (DatabaseError "invalid table name: T")
             (after_request (PREPARE statement) [] v) eq_refl).
    reflexivity.
Defined.

(** ** The malformed row, in whichever request it is pulled for *)

Section MalformedAnywhere.

Context {S : Type} (env : Environment S).

Lemma stack_cases {A} (l : list A) : l = [] \/ exists l' x, l = l' ++ [x].
Proof.
  destruct l as [| y l] using rev_ind; [left; reflexivity |].
  right. exists l, y. reflexivity.
Qed.

(** A pull either leaves the malformed row ahead or is the pull of that
    row, which is refused. *)
Lemma next_ahead_or_refused metadata before row rest ps r ps' :
  row_ahead metadata before row rest ps ->
  well_formed_row metadata row = false ->
  PreparedStatement.next ps = (r, ps') ->
  row_ahead metadata before row rest ps'
  \/ (r = Raise (ProgrammingError (refusal metadata row))
      /\ row_refused metadata rest ps').
Proof.
  intros (He & Hmeta & pulled & ahead & Hb & Hm) Hw H.
  destruct (stack_cases (_pushed_row_params ps)) as [Hs | (l & x & Hs)].
  - destruct ahead as [| g ahead]; simpl in Hm.
    + rewrite <- Hmeta in Hw.
      rewrite (next_refuses ps row rest He Hs Hm Hw), Hmeta in H.
      inversion H; subst r ps'. right. split; [reflexivity |].
      repeat split; assumption.
    + rewrite (next_from_source ps g _ He Hs Hm) in H.
      inversion H; subst ps'. left.
      split; [exact He |]. split; [exact Hmeta |].
      exists (pulled ++ [g]), ahead. split; [| reflexivity].
      rewrite <- app_assoc. exact Hb.
  - rewrite (next_pushed ps l x He Hs) in H. inversion H; subst r ps'. left.
    split; [exact He |]. split; [exact Hmeta |].
    exists pulled, ahead. split; assumption.
Qed.

(** So does the packing of a request. *)
Lemma pack_parameters_ahead_or_refused metadata before row rest (fuel : nat) :
  forall packed ps r ps',
    row_ahead metadata before row rest ps ->
    well_formed_row metadata row = false ->
    pack_parameters env fuel packed ps = (r, ps') ->
    row_ahead metadata before row rest ps'
    \/ (r = Raise (ProgrammingError (refusal metadata row))
        /\ row_refused metadata rest ps').
Proof.
  induction fuel as [| fuel IH]; intros packed ps r ps' Ha Hw H; simpl in H.
  - inversion H; subst. left. exact Ha.
  - destruct (PreparedStatement.next ps) as [[x | e |] ps1] eqn:Hn;
      destruct (next_ahead_or_refused _ _ _ _ _ _ _ Ha Hw Hn)
        as [Ha1 | [Hr Href]]; try discriminate Hr.
    + destruct (fits env packed x).
      * exact (IH _ _ _ _ Ha1 Hw H).
      * inversion H; subst r ps'. left.
        destruct Ha1 as (He & Hmeta & pulled & ahead & Hb & Hm).
        split; [exact He |]. split; [exact Hmeta |].
        exists pulled, ahead. split; assumption.
    + left. destruct e; inversion H; subst; exact Ha1.
    + inversion Hr; subst e. inversion H; subst r ps'. right.
      split; [reflexivity | exact Href].
    + inversion H; subst. left. exact Ha1.
Qed.

(** Packing pulls the rows of the lookahead stack, last pushed first, then
    the rows of the source, and leaves with the exception of the first row
    that [next] refuses. *)
Lemma pack_parameters_refuses_after_stack (stack : list (list ParamTuple)) :
  forall (ps : PreparedStatement) packed good bound row rest fuel,
    end_of_data ps = false ->
    _pushed_row_params ps = stack ->
    _multi_row_parameters ps = Some (good ++ row :: rest) ->
    bind_rows (_params_metadata ps) good = Some bound ->
    fit_together env packed (rev stack ++ bound) = true ->
    well_formed_row (_params_metadata ps) row = false ->
    (length stack + length good < fuel)%nat ->
    pack_parameters env fuel packed ps
    = (Raise (ProgrammingError (refusal (_params_metadata ps) row)),
       set_multi_row_parameters (Some rest) (set_pushed_row_params [] ps)).
Proof.
  induction stack as [| x l IH] using rev_ind;
    intros ps packed good bound row rest fuel He Hs Hm Hb Hf Hw Hfuel.
  - simpl in Hf, Hfuel.
    rewrite (pack_parameters_refuses env good ps packed bound row rest fuel
               He Hs Hm Hb Hf Hw Hfuel).
    f_equal. destruct ps; simpl in *; subst; reflexivity.
  - rewrite length_app in Hfuel. simpl in Hfuel.
    destruct fuel as [| fuel]; [lia |].
    rewrite rev_app_distr in Hf. simpl in Hf.
    apply andb_true_iff in Hf as [Hf1 Hf2].
    cbn [pack_parameters]. rewrite (next_pushed ps l x He Hs), Hf1.
    rewrite (IH (set_pushed_row_params l ps) (packed ++ [x]) good bound
                row rest fuel); try assumption; try reflexivity.
    lia.
Qed.

(** A step of the loop of [execute_prepared] either leaves the malformed
    row ahead, or has pulled it: then it raises the refusal and the
    connection is as it was. *)
Lemma execute_prepared_step_ahead_or_refused metadata before row rest
    (sid : Z) (w : World S) (ps : PreparedStatement) r w' :
  cached w sid = Some ps ->
  row_ahead metadata before row rest ps ->
  well_formed_row metadata row = false ->
  execute_prepared_step env sid w = (r, w') ->
  exists ps',
    cached w' sid = Some ps'
    /\ (row_ahead metadata before row rest ps'
        \/ (r = Raise (ProgrammingError (refusal metadata row))
            /\ conn w' = conn w
            /\ row_refused metadata rest ps')).
Proof.
  intros Hc Ha Hw H.
  unfold execute_prepared_step, bind at 1, send_execute, bind at 1 in H.
  rewrite (on_statement_run w sid ps _ Hc) in H.
  unfold gets at 1 in H. cbn [fst snd] in H.
  unfold bind at 1 in H.
  rewrite (on_statement_run _ sid ps _ (cached_after w sid ps)) in H.
  unfold gets at 1 in H. cbn [fst snd] in H.
  unfold bind at 1 in H.
  rewrite (on_statement_run _ sid ps _ (cached_after _ sid ps)) in H.
  destruct (pack_parameters env (2 + pending_rows ps) [] ps)
    as [[rows | e |] ps'] eqn:Hp;
    destruct (pack_parameters_ahead_or_refused _ _ _ _ _ _ _ _ _ Ha Hw Hp)
      as [Ha' | [Hr Href]]; try discriminate Hr;
    cbn [fst snd] in H.
  - match type of H with
    | context [send_request env ?req ?world] =>
        set (w0 := world) in *;
        assert (Hc0 : cached w0 sid = Some ps') by apply cached_after;
        clearbody w0
    end.
    exists ps'. split; [| left; exact Ha'].
    destruct (connection (self w0)) as [[] |] eqn:Hcn.
    + destruct (send env (server (conn w0)) (EXECUTE (statement_id ps) rows))
        as [reply s'] eqn:Hs.
      rewrite (send_request_open env w0 _ reply s' Hcn Hs) in H.
      destruct reply as [e | response].
      * inversion H; subst r w'. exact Hc0.
      * assert (Hc1 : cached (after_request (EXECUTE (statement_id ps) rows) s' w0)
                        sid = Some ps') by exact Hc0.
        exact (proj1 (prepared_dispatch_frame env sid response _ ps' r w' Hc1 H)).
    + unfold send_request, bind, get in H. rewrite Hcn in H.
      inversion H; subst r w'. exact Hc0.
  - inversion H; subst r w'. exists ps'.
    split; [apply cached_after | left; exact Ha'].
  - inversion H; subst r w'. exists ps'. split; [apply cached_after |].
    right. inversion Hr; subst e.
    split; [reflexivity |]. split; [reflexivity | exact Href].
  - inversion H; subst r w'. exists ps'.
    split; [apply cached_after | left; exact Ha'].
Qed.

(** The loop of [execute_prepared] over rows with a malformed one among
    them never returns: it stops before the row is pulled, or with its
    refusal. *)
Lemma execute_prepared_loop_ahead_or_refused metadata before row rest
    (sid : Z) (fuel : nat) :
  forall (w : World S) (ps : PreparedStatement) r w',
    cached w sid = Some ps ->
    row_ahead metadata before row rest ps ->
    well_formed_row metadata row = false ->
    execute_prepared_loop env fuel sid w = (r, w') ->
    r <> Return tt
    /\ exists ps',
         cached w' sid = Some ps'
         /\ (row_ahead metadata before row rest ps'
             \/ (r = Raise (ProgrammingError (refusal metadata row))
                 /\ row_refused metadata rest ps')).
Proof.
  induction fuel as [| fuel IH]; intros w ps r w' Hc Ha Hw H;
    rewrite execute_prepared_loop_step in H;
    unfold bind at 1 in H;
    rewrite (on_statement_run w sid ps _ Hc) in H;
    unfold PreparedStatement.nonzero, gets in H; cbn [fst snd] in H;
    rewrite (proj1 Ha) in H; cbn [negb] in H.
  - inversion H; subst r w'. split; [discriminate |].
    exists ps. split; [apply cached_after | left; exact Ha].
  - unfold bind at 1 in H.
    destruct (execute_prepared_step env sid _) as [[[] | e |] w1] eqn:Hstep;
      destruct (execute_prepared_step_ahead_or_refused _ _ _ _ _ _ _ _ _
                  (cached_after w sid ps) Ha Hw Hstep)
        as (ps1 & Hc1 & [Ha1 | (Hr & _ & Href)]); try discriminate Hr.
    + exact (IH w1 ps1 r w' Hc1 Ha1 Hw H).
    + inversion H; subst r w'. split; [discriminate |].
      exists ps1. split; [exact Hc1 | left; exact Ha1].
    + inversion H; subst r w'. split; [discriminate |].
      exists ps1. split; [exact Hc1 | right; split; assumption].
    + inversion H; subst r w'. split; [discriminate |].
      exists ps1. split; [exact Hc1 | left; exact Ha1].
Qed.

(** C5, as the code has it.  Let the statement cached under [sid] be in
    the middle of a batch, with any rows on its lookahead stack, and let
    its source hold the rows [before], then [row], then [rest], where
    [row] is not a list or tuple, or is one of the wrong length.

    Pulling [row] from the source raises [ProgrammingError]: for a row
    that is no list or tuple the message names the type supplied, for a
    list or tuple of the wrong length it gives the expected and the
    supplied count.

    Every step of the loop of [execute_prepared] either leaves [row] ahead
    in the source, or is the step that pulls it: that step raises the
    error with the connection as it was, so the [EXECUTE] request that was
    being packed is not sent.  When the rows of the lookahead stack and
    the rows [before] are well formed and fit one request, the step that
    pulls [row] is the very next one.  The loop never returns: it ends
    before [row] is pulled, or with the error of [row]. *)
Theorem malformed_row_is_refused_before_sending
    (w : World S) (sid : Z) (ps : PreparedStatement)
    (before : list pyval) (row : pyval) (rest : list pyval) :
  cached w sid = Some ps ->
  end_of_data ps = false ->
  _multi_row_parameters ps = Some (before ++ row :: rest) ->
  well_formed_row (_params_metadata ps) row = false ->
  let metadata := _params_metadata ps in
  let msg :=
    match as_list_or_tuple row with
    | None => msg_not_a_sequence row
    | Some items => msg_wrong_count (length metadata) (length items)
    end in
  (forall ps0,
     end_of_data ps0 = false ->
     _pushed_row_params ps0 = [] ->
     _params_metadata ps0 = metadata ->
     _multi_row_parameters ps0 = Some (row :: rest) ->
     PreparedStatement.next ps0
     = (Raise (ProgrammingError msg), set_multi_row_parameters (Some rest) ps0))
  /\ (forall r w',
        execute_prepared_step env sid w = (r, w') ->
        exists ps',
          cached w' sid = Some ps'
          /\ (row_ahead metadata before row rest ps'
              \/ (r = Raise (ProgrammingError msg)
                  /\ conn w' = conn w
                  /\ row_refused metadata rest ps')))
  /\ (forall bound,
        bind_rows metadata before = Some bound ->
        fit_together env [] (rev (_pushed_row_params ps) ++ bound) = true ->
        exists w',
          execute_prepared_step env sid w = (Raise (ProgrammingError msg), w')
          /\ conn w' = conn w
          /\ cached w' sid
             = Some (set_multi_row_parameters (Some rest)
                       (set_pushed_row_params [] ps)))
  /\ (forall fuel r w',
        execute_prepared_loop env fuel sid w = (r, w') ->
        r <> Return tt
        /\ exists ps',
             cached w' sid = Some ps'
             /\ (row_ahead metadata before row rest ps'
                 \/ (r = Raise (ProgrammingError msg)
                     /\ row_refused metadata rest ps'))).
Proof.
  intros Hc He Hm Hw metadata msg.
  assert (Ha : row_ahead metadata before row rest ps).
  { split; [exact He |]. split; [reflexivity |].
    exists [], before. split; [reflexivity | exact Hm]. }
  change msg with (refusal metadata row).
  split; [| split; [| split]].
  - intros ps0 He0 Hs0 Hmeta0 Hm0. rewrite <- Hmeta0.
    apply next_refuses; try assumption. rewrite Hmeta0. exact Hw.
  - intros r w' H.
    exact (execute_prepared_step_ahead_or_refused _ _ _ _ _ _ _ _ _ Hc Ha Hw H).
  - intros bound Hb Hf.
    unfold execute_prepared_step, send_execute, bind.
    rewrite (on_statement_run w sid ps _ Hc). unfold gets at 1. cbn [fst snd].
    rewrite (on_statement_run _ sid ps _ (cached_after w sid ps)).
    unfold gets at 1. cbn [fst snd].
    rewrite (on_statement_run _ sid ps _ (cached_after _ sid ps)).
    rewrite (pack_parameters_refuses_after_stack (_pushed_row_params ps)
               ps [] before bound row rest _ He eq_refl Hm Hb Hf Hw).
    + cbn [fst snd]. eexists. split; [reflexivity |]. split; [reflexivity |].
      apply cached_after.
    + unfold pending_rows. rewrite Hm, length_app. simpl. lia.
  - intros fuel r w' H.
    exact (execute_prepared_loop_ahead_or_refused _ _ _ _ _ _ _ _ _ _
             Hc Ha Hw H).
Qed.

End MalformedAnywhere.

(** C5 on the batch [(1,), (1,), (1,), (1, 2)] for a statement with one
    parameter, two rows to a request: the first step sends two rows and
    pushes the third back; the second step starts with the row pushed
    back, refuses the fourth row and sends nothing. *)
Lemma malformed_row_is_refused_before_sending_witness :
  let env := environment_of scripted in
  let w := binding_World [inr insert_reply]
             [PyTuple [PyInt 1]; PyTuple [PyInt 1]; PyTuple [PyInt 1];
              PyTuple [PyInt 1; PyInt 2]] in
  let w1 := snd (execute_prepared_step env 7 w) in
  fst (execute_prepared_step env 7 w) = Return tt
  /\ sent (conn w1) = [EXECUTE 7 [bound_one; bound_one]]
  /\ cached w1 7 = Some midway_statement
  /\ exists w2,
       execute_prepared_step env 7 w1
       = (Raise (ProgrammingError
                   "Prepared statement parameters expected 1 supplied 2."), w2)
       /\ sent (conn w2) = [EXECUTE 7 [bound_one; bound_one]]
       /\ cached w2 7
          = Some (set_multi_row_parameters (Some [])
                    (set_pushed_row_params [] midway_statement)).
Proof.
  intros env w w1.
  assert (Hc : cached w1 7 = Some midway_statement) by (vm_compute; reflexivity).
  split; [vm_compute; reflexivity |].
  split; [vm_compute; reflexivity |].
  split; [exact Hc |].
  destruct (malformed_row_is_refused_before_sending env w1 7 midway_statement
              [] (PyTuple [PyInt 1; PyInt 2]) [] Hc eq_refl eq_refl eq_refl)
    as (_ & _ & Hstep & _).
  destruct (Hstep [] eq_refl eq_refl) as (w2 & H1 & H2 & H3).
  exists w2. split; [exact H1 |].
  split; [rewrite H2; vm_compute; reflexivity | exact H3].
Defined.
